(** * Beremiz Linux target: cyclic scheduler and debug rendezvous

    A model of [targets/Linux/plc_Linux_main.c].  The C functions are written
    as programs over a small set of primitive actions (loads and stores of the
    file's globals, the libc / pthread / timer calls it issues, and the calls
    to the collaborators [__init], [__run] and [__cleanup]).  One interpreter
    gives the meaning of every action on an explicit world; a thread runs
    alone with [run], and several threads interleave action by action with
    [pool_step]. *)

From Stdlib Require Import ZArith List Bool Lia.
From stdpp Require Import base option list gmap.

Local Open Scope Z_scope.

(** ** Machine integers *)

(** Two's-complement reduction of [v] to a signed integer of [bits] bits. *)
Definition wrap (bits : Z) (v : Z) : Z :=
  (v + 2 ^ (bits - 1)) mod 2 ^ bits - 2 ^ (bits - 1).

Arguments wrap : simpl never.

Definition in_range (bits : Z) (v : Z) : Prop :=
  - 2 ^ (bits - 1) <= v < 2 ^ (bits - 1).

Definition int_bits : Z := 32.
Definition llong_bits : Z := 64.

(** [lldiv] and the operators [/] and [%] of C truncate toward zero. *)
Record lldiv_t := Lldiv { quot : Z; rem : Z }.

Definition lldiv (numer denom : Z) : lldiv_t :=
  {| quot := wrap llong_bits (Z.quot numer denom);
     rem := wrap llong_bits (Z.rem numer denom) |}.

(** Modelled from the spec: the macro [maxval] is defined in the common head
    that is concatenated before this file; the spec describes it as flooring
    the configured tick time at a minimum of one unit.  It is the usual
    [((a > b) ? a : b)]. *)
Definition maxval (a b : Z) : Z := if a >? b then a else b.

(** ** Data of the C file *)

Record timespec := Timespec { tv_sec : Z; tv_nsec : Z }.

Record itimerspec := Itimerspec { it_interval : timespec; it_value : timespec }.

(** Functions of this file whose address is handed to the OS.
    [catch_signal] is installed by [startPLC] and called by none of the
    functions below. *)
Inductive funptr := PLC_timer_notify_fn | catch_signal_fn.

Record sigevent := Sigevent {
  sigev_value_sival_int : Z;
  sigev_notify : Z;
  sigev_notify_attributes : Z;
  sigev_notify_function : option funptr }.

Inductive clockid := CLOCK_REALTIME.

#[export] Instance timespec_eq_dec : EqDecision timespec.
Proof. solve_decision. Defined.

#[export] Instance itimerspec_eq_dec : EqDecision itimerspec.
Proof. solve_decision. Defined.

Definition SIGEV_THREAD : Z := 2.
Definition SIGINT : Z := 2.
Definition NULL : Z := 0.

(** [memset (&x, 0, sizeof x)] on the two structs the file clears. *)
Definition zero_timespec : timespec := {| tv_sec := 0; tv_nsec := 0 |}.

Definition memset_itimerspec : itimerspec :=
  {| it_interval := zero_timespec; it_value := zero_timespec |}.

Definition memset_sigevent : sigevent :=
  {| sigev_value_sival_int := 0; sigev_notify := 0;
     sigev_notify_attributes := 0; sigev_notify_function := None |}.

Definition set_it_value_tv_sec (v : Z) (s : itimerspec) : itimerspec :=
  {| it_interval := it_interval s;
     it_value := {| tv_sec := v; tv_nsec := tv_nsec (it_value s) |} |}.

Definition set_it_value_tv_nsec (v : Z) (s : itimerspec) : itimerspec :=
  {| it_interval := it_interval s;
     it_value := {| tv_sec := tv_sec (it_value s); tv_nsec := v |} |}.

Definition set_it_interval_tv_sec (v : Z) (s : itimerspec) : itimerspec :=
  {| it_interval := {| tv_sec := v; tv_nsec := tv_nsec (it_interval s) |};
     it_value := it_value s |}.

Definition set_it_interval_tv_nsec (v : Z) (s : itimerspec) : itimerspec :=
  {| it_interval := {| tv_sec := tv_sec (it_interval s); tv_nsec := v |};
     it_value := it_value s |}.

Definition set_sigev_value_sival_int (v : Z) (s : sigevent) : sigevent :=
  {| sigev_value_sival_int := v; sigev_notify := sigev_notify s;
     sigev_notify_attributes := sigev_notify_attributes s;
     sigev_notify_function := sigev_notify_function s |}.

Definition set_sigev_notify (v : Z) (s : sigevent) : sigevent :=
  {| sigev_value_sival_int := sigev_value_sival_int s; sigev_notify := v;
     sigev_notify_attributes := sigev_notify_attributes s;
     sigev_notify_function := sigev_notify_function s |}.

Definition set_sigev_notify_attributes (v : Z) (s : sigevent) : sigevent :=
  {| sigev_value_sival_int := sigev_value_sival_int s;
     sigev_notify := sigev_notify s;
     sigev_notify_attributes := v;
     sigev_notify_function := sigev_notify_function s |}.

Definition set_sigev_notify_function (f : funptr) (s : sigevent) : sigevent :=
  {| sigev_value_sival_int := sigev_value_sival_int s;
     sigev_notify := sigev_notify s;
     sigev_notify_attributes := sigev_notify_attributes s;
     sigev_notify_function := Some f |}.

(** The integer globals the file reads or writes, by their C names.
    [PLC_timer] ([timer_t]), [__debug_tick] ([static int]) and [__tick]
    ([extern int]) are declared in the file.  [Ttick] and
    [common_ticktime__] are declared in the common head: [Ttick] is what
    [startPLC] hands to the [long long] parameters of [PLC_SetTimer] and is
    taken to be a [long long]; the width of [common_ticktime__] is a
    parameter of the platform. *)
Inductive gvar :=
| PLC_timer | Ttick | common_ticktime__ | __debug_tick | __tick.

(** The time-valued global, an [IEC_TIME]: the file passes its address to
    [clock_gettime], so it has the fields of a [struct timespec]. *)
Inductive tsvar := __CURRENT_TIME.

Inductive mutex := wait_mutex.
Inductive cond := wait_cond.

(** ** Primitive actions *)

Inductive action :=
| Load (g : gvar)
| Store (g : gvar) (v : Z)
| sync_val_compare_and_swap (ptr compared exchange : Z)
| clock_gettime (clk : clockid) (dst : tsvar)
| timer_create (clk : clockid) (sev : sigevent) (dst : gvar)
| timer_settime (t : Z) (flags : Z) (v : itimerspec)
| timer_delete (t : Z)
| signal (sig : Z) (h : funptr)
| pthread_mutex_lock (m : mutex)
| pthread_mutex_unlock (m : mutex)
| pthread_cond_wait (c : cond) (m : mutex)
| pthread_cond_broadcast (c : cond)
| call__init (argc argv : Z)
| call__run
| call__cleanup.

(** ** Programs: a free monad over the actions; every action returns a C
    integer (0 where the C call returns nothing that is used). *)

Inductive prog (A : Type) : Type :=
| Ret (a : A)
| Do (c : action) (k : Z -> prog A).

Arguments Ret {A} a.
Arguments Do {A} c k.

Fixpoint prog_bind_def {A B} (f : A -> prog B) (p : prog A) : prog B :=
  match p with
  | Ret a => f a
  | Do c k => Do c (fun r => prog_bind_def f (k r))
  end.

#[export] Instance prog_ret : MRet prog := fun A a => Ret a.
#[export] Instance prog_bind : MBind prog := fun A B f p => prog_bind_def f p.

Definition act (c : action) : prog Z := Do c Ret.

(** A thread is running a program, or is inside [pthread_cond_wait] with the
    rest of its program waiting: parked while it is in the wait list of the
    condition, then waiting to take the mutex again. *)
Inductive tstate (A : Type) : Type :=
| TRun (p : prog A)
| TWait (k : prog A).

Arguments TRun {A} p.
Arguments TWait {A} k.

(** ** Platform and collaborators

    The widths of the types declared in system headers or in the common head,
    and the collaborators that live in other translation units.  A
    collaborator acts on its own private state [app]; [__init] also returns a
    status. *)
Class Platform := {
  (** width of [time_t], the type of [tv_sec] *)
  time_t_bits : Z;
  (** width of [long], the type of [tv_nsec] *)
  long_bits : Z;
  (** width of the signed type in which
      [1000000 * maxval(common_ticktime__,1)] is evaluated *)
  ticktime_bits : Z;
  app : Type;
  ext_init : Z -> Z -> app -> Z * app;
  ext_run : app -> app;
  ext_cleanup : app -> app }.

Section Program.
Context `{P : Platform}.

(** ** World *)

Record globals := Globals {
  g_CURRENT_TIME : timespec;
  g_PLC_timer : Z;
  g_Ttick : Z;
  g_common_ticktime : Z;
  g_debug_tick : Z;
  g_tick : Z }.

Definition load (g : gvar) (m : globals) : Z :=
  match g with
  | PLC_timer => g_PLC_timer m
  | Ttick => g_Ttick m
  | common_ticktime__ => g_common_ticktime m
  | __debug_tick => g_debug_tick m
  | __tick => g_tick m
  end.

(** A store converts the value to the type of the variable. *)
Definition store (g : gvar) (v : Z) (m : globals) : globals :=
  match g with
  | PLC_timer =>
      Globals (g_CURRENT_TIME m) v (g_Ttick m) (g_common_ticktime m)
              (g_debug_tick m) (g_tick m)
  | Ttick =>
      Globals (g_CURRENT_TIME m) (g_PLC_timer m) (wrap llong_bits v)
              (g_common_ticktime m) (g_debug_tick m) (g_tick m)
  | common_ticktime__ =>
      Globals (g_CURRENT_TIME m) (g_PLC_timer m) (g_Ttick m)
              (wrap ticktime_bits v) (g_debug_tick m) (g_tick m)
  | __debug_tick =>
      Globals (g_CURRENT_TIME m) (g_PLC_timer m) (g_Ttick m)
              (g_common_ticktime m) (wrap int_bits v) (g_tick m)
  | __tick =>
      Globals (g_CURRENT_TIME m) (g_PLC_timer m) (g_Ttick m)
              (g_common_ticktime m) (g_debug_tick m) (wrap int_bits v)
  end.

Definition store_ts (x : tsvar) (t : timespec) (m : globals) : globals :=
  match x with
  | __CURRENT_TIME =>
      Globals t (g_PLC_timer m) (g_Ttick m) (g_common_ticktime m)
              (g_debug_tick m) (g_tick m)
  end.

(** A POSIX per-process timer as the kernel keeps it. *)
Record ktimer := Ktimer {
  kt_clock : clockid;
  kt_sigev : sigevent;
  kt_spec : itimerspec }.

Record os_state := Os {
  (** what [clock_gettime (CLOCK_REALTIME, _)] reads *)
  os_now : timespec;
  (** the live timers, by id; a zero [it_value] is a disarmed timer *)
  os_timers : gmap Z ktimer;
  (** how many more timers the OS will grant *)
  os_free_timers : nat;
  (** the id the next granted timer gets *)
  os_next_id : Z;
  (** the handler installed for SIGINT, if any *)
  os_sigint : option funptr }.

Record event := Ev {
  ev_tid : nat;
  (** did the thread own [wait_mutex] when it issued the action? *)
  ev_holds : bool;
  ev_act : action;
  ev_res : Z }.

Record world := World {
  w_glob : globals;
  (** [long] cells reachable through pointers *)
  w_heap : gmap Z Z;
  w_app : app;
  w_os : os_state;
  (** owner of [wait_mutex] *)
  w_mutex : option nat;
  (** threads parked on [wait_cond] *)
  w_waiters : list nat;
  w_trace : list event }.

Definition set_glob (f : globals -> globals) (w : world) : world :=
  World (f (w_glob w)) (w_heap w) (w_app w) (w_os w) (w_mutex w)
        (w_waiters w) (w_trace w).

Definition set_heap (h : gmap Z Z) (w : world) : world :=
  World (w_glob w) h (w_app w) (w_os w) (w_mutex w) (w_waiters w) (w_trace w).

Definition set_app (a : app) (w : world) : world :=
  World (w_glob w) (w_heap w) a (w_os w) (w_mutex w) (w_waiters w) (w_trace w).

Definition set_os (o : os_state) (w : world) : world :=
  World (w_glob w) (w_heap w) (w_app w) o (w_mutex w) (w_waiters w) (w_trace w).

Definition set_mutex (o : option nat) (w : world) : world :=
  World (w_glob w) (w_heap w) (w_app w) (w_os w) o (w_waiters w) (w_trace w).

Definition set_waiters (l : list nat) (w : world) : world :=
  World (w_glob w) (w_heap w) (w_app w) (w_os w) (w_mutex w) l (w_trace w).

Definition log (e : event) (w : world) : world :=
  World (w_glob w) (w_heap w) (w_app w) (w_os w) (w_mutex w) (w_waiters w)
        (w_trace w ++ [e]).

(** Does thread [tid] own a mutex whose owner field is [m]? *)
Definition owns (m : option nat) (tid : nat) : bool :=
  bool_decide (m = Some tid).

Definition holds (tid : nat) (w : world) : bool := owns (w_mutex w) tid.

(** ** The OS side of the timer and signal calls

    A call on a timer id that is not live is refused with -1 (EINVAL), as
    the kernel does for an id it does not know; [timer_create] is refused
    with -1 when the OS grants no more timers, and then leaves its output
    argument alone. *)

Definition os_timer_create (clk : clockid) (sev : sigevent) (o : os_state)
  : option (Z * os_state) :=
  match os_free_timers o with
  | O => None
  | S n =>
      Some (os_next_id o,
            Os (os_now o)
               (<[os_next_id o := Ktimer clk sev memset_itimerspec]>
                  (os_timers o))
               n (os_next_id o + 1) (os_sigint o))
  end.

Definition os_timer_settime (t : Z) (v : itimerspec) (o : os_state)
  : option os_state :=
  match os_timers o !! t with
  | None => None
  | Some kt =>
      Some (Os (os_now o)
               (<[t := Ktimer (kt_clock kt) (kt_sigev kt) v]> (os_timers o))
               (os_free_timers o) (os_next_id o) (os_sigint o))
  end.

Definition os_timer_delete (t : Z) (o : os_state) : option os_state :=
  match os_timers o !! t with
  | None => None
  | Some _ =>
      Some (Os (os_now o) (delete t (os_timers o))
               (S (os_free_timers o)) (os_next_id o) (os_sigint o))
  end.

Definition os_signal (h : funptr) (o : os_state) : os_state :=
  Os (os_now o) (os_timers o) (os_free_timers o) (os_next_id o) (Some h).

(** A timer is armed when it is live and its [it_value] is not zero. *)
Definition armed (kt : ktimer) : bool :=
  negb (bool_decide (it_value (kt_spec kt) = zero_timespec)).

(** ** Meaning of one action

    [Proceed r w]: the call returns [r] in world [w].  [Park w]: the thread
    is suspended inside [pthread_cond_wait].  [Blocked]: the call cannot
    return now (a taken mutex), or has no defined behaviour (unlocking or
    waiting on a mutex the thread does not own, a wild pointer). *)
Inductive effect :=
| Proceed (r : Z) (w : world)
| Park (w : world)
| Blocked.

Definition exec_action (tid : nat) (a : action) (w : world) : effect :=
  match a with
  | Load g => Proceed (load g (w_glob w)) w
  | Store g v => Proceed 0 (set_glob (store g v) w)
  | sync_val_compare_and_swap ptr compared exchange =>
      match w_heap w !! ptr with
      | None => Blocked
      | Some old =>
          if bool_decide (old = compared)
          then Proceed old (set_heap (<[ptr := exchange]> (w_heap w)) w)
          else Proceed old w
      end
  | clock_gettime CLOCK_REALTIME dst =>
      Proceed 0 (set_glob (store_ts dst (os_now (w_os w))) w)
  | timer_create clk sev dst =>
      match os_timer_create clk sev (w_os w) with
      | Some (id, o) => Proceed 0 (set_glob (store dst id) (set_os o w))
      | None => Proceed (-1) w
      end
  | timer_settime t _ v =>
      match os_timer_settime t v (w_os w) with
      | Some o => Proceed 0 (set_os o w)
      | None => Proceed (-1) w
      end
  | timer_delete t =>
      match os_timer_delete t (w_os w) with
      | Some o => Proceed 0 (set_os o w)
      | None => Proceed (-1) w
      end
  | signal _ h => Proceed 0 (set_os (os_signal h (w_os w)) w)
  | pthread_mutex_lock wait_mutex =>
      match w_mutex w with
      | None => Proceed 0 (set_mutex (Some tid) w)
      | Some _ => Blocked
      end
  | pthread_mutex_unlock wait_mutex =>
      if holds tid w then Proceed 0 (set_mutex None w) else Blocked
  | pthread_cond_wait wait_cond wait_mutex =>
      if holds tid w
      then Park (set_waiters (tid :: w_waiters w) (set_mutex None w))
      else Blocked
  | pthread_cond_broadcast wait_cond => Proceed 0 (set_waiters [] w)
  | call__init argc argv =>
      let '(r, a) := ext_init argc argv (w_app w) in
      Proceed r (set_app a w)
  | call__run => Proceed 0 (set_app (ext_run (w_app w)) w)
  | call__cleanup => Proceed 0 (set_app (ext_cleanup (w_app w)) w)
  end.

(** An action leaves its record in the trace; the record says whether the
    thread owned [wait_mutex] when it issued it. *)
Definition perform (tid : nat) (a : action) (w : world) : effect :=
  match exec_action tid a w with
  | Proceed r w' => Proceed r (log (Ev tid (holds tid w) a r) w')
  | Park w' => Park (log (Ev tid (holds tid w) a 0) w')
  | Blocked => Blocked
  end.

(** ** Threads *)

Definition step {A} (tid : nat) (ts : tstate A) (w : world)
  : option (tstate A * world) :=
  match ts with
  | TRun (Ret _) => None
  | TRun (Do a k) =>
      match perform tid a w with
      | Proceed r w' => Some (TRun (k r), w')
      | Park w' => Some (TWait (k 0), w')
      | Blocked => None
      end
  | TWait k =>
      if bool_decide (tid ∈ w_waiters w) then None
      else match w_mutex w with
           | None => Some (TRun k, set_mutex (Some tid) w)
           | Some _ => None
           end
  end.

(** A thread running alone, until it returns, parks or blocks. *)
Fixpoint run {A} (tid : nat) (p : prog A) (w : world) : tstate A * world :=
  match p with
  | Ret a => (TRun (Ret a), w)
  | Do a k =>
      match perform tid a w with
      | Proceed r w' => run tid (k r) w'
      | Park w' => (TWait (k 0), w')
      | Blocked => (TRun (Do a k), w)
      end
  end.

(** The wake-up that ends a wait: the thread has left the wait list (a
    broadcast, or a spurious wake-up, which POSIX allows), takes the mutex
    again and runs on. *)
Definition spurious_wake (tid : nat) (w : world) : world :=
  set_waiters (filter (fun t => t ≠ tid) (w_waiters w)) w.

Definition resume {A} (tid : nat) (ts : tstate A) (w : world)
  : tstate A * world :=
  match step tid ts w with
  | Some (TRun p, w') => run tid p w'
  | Some (ts', w') => (ts', w')
  | None => (ts, w)
  end.

(** ** The functions of plc_Linux_main.c *)

Definition AtomicCompareExchange (atomicvar compared exchange : Z) : prog Z :=
  act (sync_val_compare_and_swap atomicvar compared exchange).

Definition PLC_GetTime (CURRENT_TIME : tsvar) : prog unit :=
  act (clock_gettime CLOCK_REALTIME CURRENT_TIME) ;; mret tt.

Definition PLC_timer_notify (val : Z) : prog unit :=
  PLC_GetTime __CURRENT_TIME ;;
  act call__run ;;
  mret tt.

Definition to_time_t (v : Z) : Z := wrap time_t_bits v.
Definition to_long (v : Z) : Z := wrap long_bits v.

(** The local [timerValues] of [PLC_SetTimer] just before the call of
    [timer_settime]. *)
Definition timerValues (next period : Z) : itimerspec :=
  let timerValues := memset_itimerspec in
  let nxt_div := lldiv next 1000000000 in
  let period_div := lldiv period 1000000000 in
  let timerValues :=
    set_it_value_tv_sec (to_time_t (quot nxt_div)) timerValues in
  let timerValues :=
    set_it_value_tv_nsec (to_long (rem nxt_div)) timerValues in
  let timerValues :=
    set_it_interval_tv_sec (to_time_t (quot period_div)) timerValues in
  let timerValues :=
    set_it_interval_tv_nsec (to_long (rem period_div)) timerValues in
  timerValues.

Definition PLC_SetTimer (next period : Z) : prog unit :=
  t ← act (Load PLC_timer);
  act (timer_settime t 0 (timerValues next period)) ;;
  mret tt.

(** The product is evaluated in the type of [common_ticktime__] (after
    integer promotion) and then converted to the type of [Ttick]. *)
Definition startPLC (argc argv : Z) : prog Z :=
  c ← act (Load common_ticktime__);
  act (Store Ttick (wrap ticktime_bits (1000000 * maxval c 1))) ;;
  let sigev := memset_sigevent in
  let sigev := set_sigev_value_sival_int 0 sigev in
  let sigev := set_sigev_notify SIGEV_THREAD sigev in
  let sigev := set_sigev_notify_attributes NULL sigev in
  let sigev := set_sigev_notify_function PLC_timer_notify_fn sigev in
  act (timer_create CLOCK_REALTIME sigev PLC_timer) ;;
  r ← act (call__init argc argv);
  if bool_decide (r = 0) then
    t1 ← act (Load Ttick);
    t2 ← act (Load Ttick);
    PLC_SetTimer t1 t2 ;;
    act (signal SIGINT catch_signal_fn) ;;
    mret 0
  else
    mret 1.

Definition AbortDebug : prog unit :=
  act (Store __debug_tick (-1)) ;;
  act (pthread_cond_broadcast wait_cond) ;;
  mret tt.

(** [stopPLC] is declared [int] but falls off its end without a [return]. *)
Definition stopPLC : prog unit :=
  PLC_SetTimer 0 0 ;;
  t ← act (Load PLC_timer);
  act (timer_delete t) ;;
  act call__cleanup ;;
  AbortDebug.

Definition WaitDebugData : prog Z :=
  act (pthread_mutex_lock wait_mutex) ;;
  act (pthread_cond_wait wait_cond wait_mutex) ;;
  act (pthread_mutex_unlock wait_mutex) ;;
  act (Load __debug_tick).

Definition InitiateDebugTransfer : prog unit :=
  t ← act (Load __tick);
  act (Store __debug_tick t) ;;
  act (pthread_cond_broadcast wait_cond) ;;
  mret tt.

(** ** Observations on worlds *)

Definition giga : Z := 1000000000.

(** The exact split of two nanosecond counts into seconds and nanoseconds,
    as a timer specification: the value [PLC_SetTimer] is compared with. *)
Definition split_ns (next period : Z) : itimerspec :=
  {| it_interval := {| tv_sec := period / giga; tv_nsec := period mod giga |};
     it_value := {| tv_sec := next / giga; tv_nsec := next mod giga |} |}.

(** [ts] is [n] nanoseconds split by a division that truncates toward
    zero, as [lldiv] and the operators [/] and [%] of C do: the nanoseconds
    have the sign of [n]. *)
Definition truncated_split (n : Z) (ts : timespec) : Prop :=
  tv_sec ts = Z.quot n giga /\ tv_nsec ts = Z.rem n giga /\
  tv_sec ts * giga + tv_nsec ts = n /\
  - giga < tv_nsec ts < giga /\
  (0 <= n -> 0 <= tv_sec ts /\ 0 <= tv_nsec ts) /\
  (n <= 0 -> tv_sec ts <= 0 /\ tv_nsec ts <= 0).

(** The status an OS call returns: 0 when it succeeds, -1 when it is
    refused. *)
Definition status {A} (o : option A) : Z :=
  match o with Some _ => 0 | None => -1 end.

(** The two actions of one timer fire. *)
Definition stamp_then_run : list action :=
  [clock_gettime CLOCK_REALTIME __CURRENT_TIME; call__run].

(** The notification request [startPLC] builds. *)
Definition thread_notify : sigevent :=
  {| sigev_value_sival_int := 0; sigev_notify := SIGEV_THREAD;
     sigev_notify_attributes := NULL;
     sigev_notify_function := Some PLC_timer_notify_fn |}.

(** [w'] extends the trace of [w] by exactly the events [es]. *)
Definition emits (w w' : world) (es : list event) : Prop :=
  w_trace w' = w_trace w ++ es.

(** Everything but the trace. *)
Definition same_state (w w' : world) : Prop :=
  w_glob w' = w_glob w /\ w_heap w' = w_heap w /\ w_app w' = w_app w /\
  w_os w' = w_os w /\ w_mutex w' = w_mutex w /\ w_waiters w' = w_waiters w.

Definition set_now (t : timespec) (w : world) : world :=
  set_os (Os t (os_timers (w_os w)) (os_free_timers (w_os w))
             (os_next_id (w_os w)) (os_sigint (w_os w))) w.

(** The timer fires once for each reading [t] of the clock in [times]: the
    OS runs the notification function on thread [tid] when the clock shows
    [t]. *)
Fixpoint fires (tid : nat) (times : list timespec) (w : world) : world :=
  match times with
  | [] => w
  | t :: ts => fires tid ts (snd (run tid (PLC_timer_notify 0) (set_now t w)))
  end.

(** One cycle of the PLC thread that publishes: the collaborator has set the
    cycle counter to [t] and calls [InitiateDebugTransfer]. *)
Definition cycle_publish (t : Z) : prog unit :=
  act (Store __tick t) ;; InitiateDebugTransfer.

Fixpoint publishes (ts : list Z) : prog unit :=
  match ts with
  | [] => mret tt
  | t :: ts' => cycle_publish t ;; publishes ts'
  end.

(** What is left of [WaitDebugData] when [pthread_cond_wait] returns. *)
Definition WaitDebugData_woken : prog Z :=
  act (pthread_mutex_unlock wait_mutex) ;;
  act (Load __debug_tick).

(** Steps of one thread, any number of them. *)
Inductive steps {A} (tid : nat)
  : tstate A -> world -> tstate A -> world -> Prop :=
| steps_refl ts w : steps tid ts w ts w
| steps_step ts w ts' w' ts'' w'' :
    step tid ts w = Some (ts', w') ->
    steps tid ts' w' ts'' w'' ->
    steps tid ts w ts'' w''.

(** ** Several threads

    A scheduler choice runs one action of one thread, or wakes a parked
    thread spuriously. *)
Inductive choice := Sched (tid : nat) | Wake (tid : nat).

Definition pool_step (c : choice) (pw : list (tstate Z) * world)
  : option (list (tstate Z) * world) :=
  match c with
  | Sched tid =>
      match pw.1 !! tid with
      | None => None
      | Some ts =>
          match step tid ts pw.2 with
          | None => None
          | Some (ts', w') => Some (<[tid := ts']> pw.1, w')
          end
      end
  | Wake tid => Some (pw.1, spurious_wake tid pw.2)
  end.

Fixpoint pool_exec (sched : list choice) (pw : list (tstate Z) * world)
  : option (list (tstate Z) * world) :=
  match sched with
  | [] => Some pw
  | c :: cs =>
      match pool_step c pw with
      | None => None
      | Some pw' => pool_exec cs pw'
      end
  end.

Definition returned {A} (ts : tstate A) : option A :=
  match ts with
  | TRun (Ret a) => Some a
  | _ => None
  end.

(** ** Predicates on traces *)

Definition is_timer_settime (e : event) : bool :=
  match ev_act e with timer_settime _ _ _ => true | _ => false end.

Definition is_timer_create (e : event) : bool :=
  match ev_act e with timer_create _ _ _ => true | _ => false end.

Definition is_timer_delete (e : event) : bool :=
  match ev_act e with timer_delete _ => true | _ => false end.

Definition is_signal (e : event) : bool :=
  match ev_act e with signal _ _ => true | _ => false end.

Definition is_cleanup (e : event) : bool :=
  match ev_act e with call__cleanup => true | _ => false end.

(** A read or a write of [__debug_tick]. *)
Definition touches_debug_tick (e : event) : bool :=
  match ev_act e with
  | Load __debug_tick => true
  | Store __debug_tick _ => true
  | _ => false
  end.

(** Every access to [__debug_tick] in the trace was made by a thread that
    owned [wait_mutex] at that moment. *)
Definition guarded (es : list event) : bool :=
  forallb (fun e => implb (touches_debug_tick e) (ev_holds e)) es.

(** No access to [__debug_tick] in the trace was made by a thread that
    owned [wait_mutex] at that moment. *)
Definition unguarded (es : list event) : bool :=
  forallb (fun e => implb (touches_debug_tick e) (negb (ev_holds e))) es.

Definition count (f : event -> bool) (es : list event) : nat :=
  length (List.filter f es).

(** ** Several observers *)

(** The threads [obs] call [WaitDebugData] one after the other. *)
Fixpoint park_all (obs : list nat) (w : world) : world :=
  match obs with
  | [] => w
  | t :: ts => park_all ts (snd (run t WaitDebugData w))
  end.

(** The threads [obs], each inside the [pthread_cond_wait] of
    [WaitDebugData], run on one after the other; what each of them returns,
    [None] for one that cannot return. *)
Fixpoint resume_all (obs : list nat) (w : world) : list (option Z) * world :=
  match obs with
  | [] => ([], w)
  | t :: ts =>
      let r := resume t (TWait WaitDebugData_woken) w in
      let rs := resume_all ts (snd r) in
      (returned (fst r) :: fst rs, snd rs)
  end.

(** ** The interrupt handler

    [catch_signal] makes two libc calls that no other function of the file
    makes: [printf], whose line goes to the standard output of the process,
    and [exit], which ends the process. *)






End Program.

(** ** A concrete platform and concrete worlds

    LP64 Linux; the collaborators count how often they are called, and
    [__init] returns [status]. *)
Definition lp64 (status : Z) (ticktime_width : Z) : Platform :=
  {| time_t_bits := 64; long_bits := 64; ticktime_bits := ticktime_width;
     app := nat;
     ext_init := fun _ _ n => (status, S n);
     ext_run := S;
     ext_cleanup := S |}.

Definition lp64_init_ok : Platform := lp64 0 32.
Definition lp64_init_fails : Platform := lp64 7 32.
Definition lp64_wide_ticktime : Platform := lp64 0 64.

(** A world at process start: zeroed globals except the configured tick
    time [c], no timer, [free] timers left to grant. *)
Definition boot `{P : Platform} (a : app) (c : Z) (free : nat) : world :=
  World (Globals zero_timespec 0 0 c 0 0) (∅ : gmap Z Z) a
        (Os (Timespec 100 5) (∅ : gmap Z ktimer) free 1 None) None [] [].

(** * Properties *)

Section Properties.
Context `{P : Platform}.

(** ** Machine integers *)

Lemma wrap_id (bits v : Z) : 0 < bits -> in_range bits v -> wrap bits v = v.
Proof.
  unfold wrap, in_range. intros Hb Hv.
  assert (E : 2 ^ bits = 2 * 2 ^ (bits - 1)).
  { rewrite <- Z.pow_succ_r by lia. f_equal. lia. }
  rewrite Z.mod_small by lia. lia.
Qed.

Lemma in_range_mono (b1 b2 v : Z) :
  0 < b1 <= b2 -> in_range b1 v -> in_range b2 v.
Proof.
  unfold in_range. intros Hb Hv.
  assert (2 ^ (b1 - 1) <= 2 ^ (b2 - 1)) by (apply Z.pow_le_mono_r; lia).
  lia.
Qed.

Lemma emits_nil (w : world) : emits w w [].
Proof. unfold emits. by rewrite app_nil_r. Qed.

(** ** One action at a time

    The equations by which a program is executed symbolically.  Each says
    what [run] does with the first action of a program, on a world given
    by its seven fields. *)

Section Steps.
Context {A : Type} (tid : nat) (k : Z -> prog A).
Context (g : globals) (h : gmap Z Z) (a : app) (o : os_state)
        (m : option nat) (ws : list nat) (tr : list event).

Lemma run_ret (x : A) (w : world) : run tid (Ret x) w = (TRun (Ret x), w).
Proof. reflexivity. Qed.

Lemma run_load (x : gvar) :
  run tid (Do (Load x) k) (World g h a o m ws tr) =
  run tid (k (load x g))
    (World g h a o m ws (tr ++ [Ev tid (owns m tid) (Load x) (load x g)])).
Proof. reflexivity. Qed.

Lemma run_store (x : gvar) (v : Z) :
  run tid (Do (Store x v) k) (World g h a o m ws tr) =
  run tid (k 0)
    (World (store x v g) h a o m ws
       (tr ++ [Ev tid (owns m tid) (Store x v) 0])).
Proof. reflexivity. Qed.

Lemma run_clock_gettime (dst : tsvar) :
  run tid (Do (clock_gettime CLOCK_REALTIME dst) k) (World g h a o m ws tr) =
  run tid (k 0)
    (World (store_ts dst (os_now o) g) h a o m ws
       (tr ++ [Ev tid (owns m tid) (clock_gettime CLOCK_REALTIME dst) 0])).
Proof. reflexivity. Qed.

Lemma run_timer_create_granted (clk : clockid) (sev : sigevent) (dst : gvar)
    (id : Z) (o' : os_state) :
  os_timer_create clk sev o = Some (id, o') ->
  run tid (Do (timer_create clk sev dst) k) (World g h a o m ws tr) =
  run tid (k 0)
    (World (store dst id g) h a o' m ws
       (tr ++ [Ev tid (owns m tid) (timer_create clk sev dst) 0])).
Proof. intros H. cbn. unfold perform. cbn. rewrite H. reflexivity. Qed.

Lemma run_timer_create_refused (clk : clockid) (sev : sigevent) (dst : gvar) :
  os_timer_create clk sev o = None ->
  run tid (Do (timer_create clk sev dst) k) (World g h a o m ws tr) =
  run tid (k (-1))
    (World g h a o m ws
       (tr ++ [Ev tid (owns m tid) (timer_create clk sev dst) (-1)])).
Proof. intros H. cbn. unfold perform. cbn. rewrite H. reflexivity. Qed.

Lemma run_timer_settime_done (t flags : Z) (v : itimerspec) (o' : os_state) :
  os_timer_settime t v o = Some o' ->
  run tid (Do (timer_settime t flags v) k) (World g h a o m ws tr) =
  run tid (k 0)
    (World g h a o' m ws
       (tr ++ [Ev tid (owns m tid) (timer_settime t flags v) 0])).
Proof. intros H. cbn. unfold perform. cbn. rewrite H. reflexivity. Qed.

Lemma run_timer_settime_refused (t flags : Z) (v : itimerspec) :
  os_timer_settime t v o = None ->
  run tid (Do (timer_settime t flags v) k) (World g h a o m ws tr) =
  run tid (k (-1))
    (World g h a o m ws
       (tr ++ [Ev tid (owns m tid) (timer_settime t flags v) (-1)])).
Proof. intros H. cbn. unfold perform. cbn. rewrite H. reflexivity. Qed.

Lemma run_timer_delete_done (t : Z) (o' : os_state) :
  os_timer_delete t o = Some o' ->
  run tid (Do (timer_delete t) k) (World g h a o m ws tr) =
  run tid (k 0)
    (World g h a o' m ws (tr ++ [Ev tid (owns m tid) (timer_delete t) 0])).
Proof. intros H. cbn. unfold perform. cbn. rewrite H. reflexivity. Qed.

Lemma run_timer_delete_refused (t : Z) :
  os_timer_delete t o = None ->
  run tid (Do (timer_delete t) k) (World g h a o m ws tr) =
  run tid (k (-1))
    (World g h a o m ws (tr ++ [Ev tid (owns m tid) (timer_delete t) (-1)])).
Proof. intros H. cbn. unfold perform. cbn. rewrite H. reflexivity. Qed.

Lemma run_signal (sig : Z) (f : funptr) :
  run tid (Do (signal sig f) k) (World g h a o m ws tr) =
  run tid (k 0)
    (World g h a (os_signal f o) m ws
       (tr ++ [Ev tid (owns m tid) (signal sig f) 0])).
Proof. reflexivity. Qed.

Lemma run_broadcast :
  run tid (Do (pthread_cond_broadcast wait_cond) k) (World g h a o m ws tr) =
  run tid (k 0)
    (World g h a o m []
       (tr ++ [Ev tid (owns m tid) (pthread_cond_broadcast wait_cond) 0])).
Proof. reflexivity. Qed.

Lemma run_init (argc argv : Z) :
  run tid (Do (call__init argc argv) k) (World g h a o m ws tr) =
  run tid (k (ext_init argc argv a).1)
    (World g h (ext_init argc argv a).2 o m ws
       (tr ++
        [Ev tid (owns m tid) (call__init argc argv)
            (ext_init argc argv a).1])).
Proof.
  cbn. unfold perform. cbn. destruct (ext_init argc argv a). reflexivity.
Qed.

Lemma run_call_run :
  run tid (Do call__run k) (World g h a o m ws tr) =
  run tid (k 0)
    (World g h (ext_run a) o m ws (tr ++ [Ev tid (owns m tid) call__run 0])).
Proof. reflexivity. Qed.

Lemma run_cleanup :
  run tid (Do call__cleanup k) (World g h a o m ws tr) =
  run tid (k 0)
    (World g h (ext_cleanup a) o m ws
       (tr ++ [Ev tid (owns m tid) call__cleanup 0])).
Proof. reflexivity. Qed.

Lemma run_lock :
  run tid (Do (pthread_mutex_lock wait_mutex) k) (World g h a o None ws tr) =
  run tid (k 0)
    (World g h a o (Some tid) ws
       (tr ++ [Ev tid false (pthread_mutex_lock wait_mutex) 0])).
Proof. reflexivity. Qed.

Lemma run_unlock :
  run tid (Do (pthread_mutex_unlock wait_mutex) k)
    (World g h a o (Some tid) ws tr) =
  run tid (k 0)
    (World g h a o None ws
       (tr ++ [Ev tid true (pthread_mutex_unlock wait_mutex) 0])).
Proof.
  cbn. unfold perform. cbn. unfold holds, owns. cbn.
  rewrite bool_decide_eq_true_2 by reflexivity. reflexivity.
Qed.

Lemma run_cond_wait :
  run tid (Do (pthread_cond_wait wait_cond wait_mutex) k)
    (World g h a o (Some tid) ws tr) =
  (TWait (k 0),
   World g h a o None (tid :: ws)
     (tr ++ [Ev tid true (pthread_cond_wait wait_cond wait_mutex) 0])).
Proof.
  cbn. unfold perform. cbn. unfold holds, owns. cbn.
  rewrite bool_decide_eq_true_2 by reflexivity. reflexivity.
Qed.

End Steps.

(** Programs are brought to the form [Do a k] or [Ret a]. *)
Ltac prog_norm :=
  unfold act; cbn [mbind mret prog_bind prog_ret prog_bind_def].

(** Reads of the globals after writes. *)
Ltac glob_norm :=
  cbn [load store store_ts g_CURRENT_TIME g_PLC_timer g_Ttick
       g_common_ticktime g_debug_tick g_tick].

(** One step of symbolic execution, for the actions that always proceed. *)
Ltac step :=
  prog_norm;
  first [ rewrite run_load | rewrite run_store | rewrite run_clock_gettime
        | rewrite run_signal | rewrite run_broadcast | rewrite run_init
        | rewrite run_call_run | rewrite run_cleanup | rewrite run_lock
        | rewrite run_unlock | rewrite run_ret ];
  glob_norm.

(** The fields of a world given by its fields. *)
Ltac world_norm :=
  cbn [fst snd w_glob w_heap w_app w_os w_mutex w_waiters w_trace].

(** ** Nanoseconds into seconds and nanoseconds *)

Lemma lldiv_nonneg (n : Z) :
  0 <= n < 2 ^ 63 -> lldiv n 1000000000 = Lldiv (n / giga) (n mod giga).
Proof.
  intros Hn. unfold lldiv, giga.
  rewrite Z.quot_div_nonneg, Z.rem_mod_nonneg by lia.
  pose proof (Z.mod_pos_bound n 1000000000 ltac:(lia)).
  assert (0 <= n / 1000000000 <= n).
  { split; [apply Z.div_pos; lia|].
    apply Z.div_le_upper_bound; lia. }
  rewrite !wrap_id; unfold llong_bits, in_range; try reflexivity; lia.
Qed.

Lemma to_time_t_seconds (n : Z) :
  35 <= time_t_bits -> 0 <= n < 2 ^ 63 -> to_time_t (n / giga) = n / giga.
Proof.
  intros Hb Hn. unfold to_time_t, giga. apply wrap_id; [lia|].
  assert (0 <= n / 1000000000 < 2 ^ 34).
  { split; [apply Z.div_pos; lia|].
    apply Z.div_lt_upper_bound; lia. }
  apply (in_range_mono 35); [lia|]. unfold in_range. lia.
Qed.

Lemma to_long_nanoseconds (n : Z) :
  31 <= long_bits -> to_long (n mod giga) = n mod giga.
Proof.
  intros Hb. unfold to_long, giga. apply wrap_id; [lia|].
  pose proof (Z.mod_pos_bound n 1000000000 ltac:(lia)).
  apply (in_range_mono 31); [lia|]. unfold in_range. lia.
Qed.

Lemma timerValues_split (next period : Z) :
  35 <= time_t_bits -> 31 <= long_bits ->
  0 <= next < 2 ^ 63 -> 0 <= period < 2 ^ 63 ->
  timerValues next period = split_ns next period.
Proof.
  intros Ht Hl Hn Hp. unfold timerValues.
  rewrite !lldiv_nonneg by assumption. cbn [quot rem].
  rewrite !to_time_t_seconds, !to_long_nanoseconds by assumption.
  reflexivity.
Qed.

Lemma split_ns_exact (next period : Z) :
  0 <= next -> 0 <= period ->
  let s := split_ns next period in
  tv_sec (it_value s) * giga + tv_nsec (it_value s) = next /\
  0 <= tv_nsec (it_value s) < giga /\ 0 <= tv_sec (it_value s) /\
  tv_sec (it_interval s) * giga + tv_nsec (it_interval s) = period /\
  0 <= tv_nsec (it_interval s) < giga /\ 0 <= tv_sec (it_interval s).
Proof.
  intros Hn Hp. cbn. unfold giga.
  pose proof (Z.div_mod next 1000000000 ltac:(lia)).
  pose proof (Z.div_mod period 1000000000 ltac:(lia)).
  pose proof (Z.mod_pos_bound next 1000000000 ltac:(lia)).
  pose proof (Z.mod_pos_bound period 1000000000 ltac:(lia)).
  pose proof (Z.div_pos next 1000000000 ltac:(lia) ltac:(lia)).
  pose proof (Z.div_pos period 1000000000 ltac:(lia) ltac:(lia)).
  lia.
Qed.

(** What one call of [PLC_SetTimer] does to the world, for any arguments. *)
Lemma PLC_SetTimer_run (tid : nat) (w : world) (next period : Z) :
  let t := g_PLC_timer (w_glob w) in
  let v := timerValues next period in
  let r := run tid (PLC_SetTimer next period) w in
  fst r = TRun (Ret tt) /\
  w_glob (snd r) = w_glob w /\ w_heap (snd r) = w_heap w /\
  w_app (snd r) = w_app w /\ w_mutex (snd r) = w_mutex w /\
  w_waiters (snd r) = w_waiters w /\
  match os_timers (w_os w) !! t with
  | Some kt =>
      emits w (snd r)
        [Ev tid (holds tid w) (Load PLC_timer) t;
         Ev tid (holds tid w) (timer_settime t 0 v) 0] /\
      w_os (snd r) =
        Os (os_now (w_os w))
           (<[t := Ktimer (kt_clock kt) (kt_sigev kt) v]> (os_timers (w_os w)))
           (os_free_timers (w_os w)) (os_next_id (w_os w))
           (os_sigint (w_os w))
  | None =>
      emits w (snd r)
        [Ev tid (holds tid w) (Load PLC_timer) t;
         Ev tid (holds tid w) (timer_settime t 0 v) (-1)] /\
      w_os (snd r) = w_os w
  end.
Proof.
  cbv zeta. unfold PLC_SetTimer. generalize (timerValues next period).
  intros v.
  destruct (os_timers (w_os w) !! g_PLC_timer (w_glob w)) as [kt|] eqn:E;
    cbn; unfold perform; cbn; unfold os_timer_settime; cbn; rewrite E; cbn;
    unfold emits; cbn; rewrite <- app_assoc; repeat split; reflexivity.
Qed.

(** C6. For arguments from 0 to 2^63-1, on a platform whose [time_t] has at
    least 35 bits and whose [long] has at least 31, [PLC_SetTimer] hands the
    OS exactly the integer quotient and remainder by 1_000_000_000 of each
    argument, and quotient and remainder give the argument back.  With
    1_500_000_000 and 999_999_999 that is 1 s + 500_000_000 ns and
    0 s + 999_999_999 ns; with 0 and 0 it is the all-zero specification,
    which leaves a live timer disarmed and without a period. *)
Theorem PLC_SetTimer_splits_exactly
    (tid : nat) (w : world) (next period : Z) :
  35 <= time_t_bits -> 31 <= long_bits ->
  0 <= next <= 2 ^ 63 - 1 -> 0 <= period <= 2 ^ 63 - 1 ->
  let t := g_PLC_timer (w_glob w) in
  let r := run tid (PLC_SetTimer next period) w in
  let s := split_ns next period in
  fst r = TRun (Ret tt) /\
  (exists res,
     emits w (snd r)
       [Ev tid (holds tid w) (Load PLC_timer) t;
        Ev tid (holds tid w) (timer_settime t 0 s) res]) /\
  tv_sec (it_value s) = next / 1000000000 /\
  tv_nsec (it_value s) = next mod 1000000000 /\
  tv_sec (it_interval s) = period / 1000000000 /\
  tv_nsec (it_interval s) = period mod 1000000000 /\
  tv_sec (it_value s) * 1000000000 + tv_nsec (it_value s) = next /\
  0 <= tv_nsec (it_value s) < 1000000000 /\
  tv_sec (it_interval s) * 1000000000 + tv_nsec (it_interval s) = period /\
  0 <= tv_nsec (it_interval s) < 1000000000 /\
  timerValues next period = s /\
  timerValues 1500000000 999999999 =
    Itimerspec (Timespec 0 999999999) (Timespec 1 500000000) /\
  timerValues 0 0 = memset_itimerspec /\
  let r0 := run tid (PLC_SetTimer 0 0) w in
  (exists res,
     emits w (snd r0)
       [Ev tid (holds tid w) (Load PLC_timer) t;
        Ev tid (holds tid w) (timer_settime t 0 memset_itimerspec) res]) /\
  match os_timers (w_os w) !! t with
  | Some kt =>
      os_timers (w_os (snd r)) !! t =
        Some (Ktimer (kt_clock kt) (kt_sigev kt) s) /\
      os_timers (w_os (snd r0)) !! t =
        Some (Ktimer (kt_clock kt) (kt_sigev kt) memset_itimerspec) /\
      armed (Ktimer (kt_clock kt) (kt_sigev kt) memset_itimerspec) = false
  | None => w_os (snd r) = w_os w /\ w_os (snd r0) = w_os w
  end.
Proof.
  intros Ht Hl Hn Hp. cbv zeta.
  assert (Hn' : 0 <= next < 2 ^ 63) by lia.
  assert (Hp' : 0 <= period < 2 ^ 63) by lia.
  pose proof (PLC_SetTimer_run tid w next period) as R.
  pose proof (PLC_SetTimer_run tid w 0 0) as R0.
  cbv zeta in R, R0.
  rewrite timerValues_split in R, R0 by (assumption || lia).
  destruct R as (R1 & _ & _ & _ & _ & _ & R2).
  destruct R0 as (_ & _ & _ & _ & _ & _ & R3).
  change (split_ns 0 0) with memset_itimerspec in R3.
  pose proof (split_ns_exact next period ltac:(lia) ltac:(lia)) as E.
  cbv zeta in E. unfold giga in E.
  destruct E as (E1 & E2 & _ & E3 & E4 & _).
  assert (V : timerValues next period = split_ns next period)
    by (apply timerValues_split; assumption).
  assert (V1 : timerValues 1500000000 999999999 =
               Itimerspec (Timespec 0 999999999) (Timespec 1 500000000))
    by (rewrite timerValues_split by (assumption || lia); reflexivity).
  assert (V0 : timerValues 0 0 = memset_itimerspec)
    by (rewrite timerValues_split by (assumption || lia); reflexivity).
  split; [exact R1|].
  destruct (os_timers (w_os w) !! g_PLC_timer (w_glob w)) as [kt|].
  - destruct R2 as [R2 R2o], R3 as [R3 R3o].
    split; [by eexists|].
    do 11 (split; [first [reflexivity | assumption]|]).
    split; [by eexists|].
    rewrite R2o, R3o. cbn [os_timers]. rewrite !lookup_insert_eq.
    repeat split; reflexivity.
  - destruct R2 as [R2 R2o], R3 as [R3 R3o].
    split; [by eexists|].
    do 11 (split; [first [reflexivity | assumption]|]).
    split; [by eexists|].
    split; assumption.
Qed.

(** ** Sequencing *)

Lemma run_bind {A B} (tid : nat) (p : prog A) (f : A -> prog B)
    (w w' : world) (a : A) :
  run tid p w = (TRun (Ret a), w') ->
  run tid (p ≫= f) w = run tid (f a) w'.
Proof.
  revert w. induction p as [a0|c k IH]; intros w; cbn.
  - intros [= -> ->]. reflexivity.
  - destruct (perform tid c w) as [r w1|w1|]; [apply IH|discriminate..].
Qed.

(** ** Stop *)

(** What one call of [stopPLC] does to the world. *)
Lemma stopPLC_run (tid : nat) (w : world) :
  35 <= time_t_bits -> 31 <= long_bits ->
  let t := g_PLC_timer (w_glob w) in
  let h := holds tid w in
  let r := run tid stopPLC w in
  fst r = TRun (Ret tt) /\
  w_glob (snd r) = store __debug_tick (-1) (w_glob w) /\
  w_heap (snd r) = w_heap w /\
  w_app (snd r) = ext_cleanup (w_app w) /\
  w_mutex (snd r) = w_mutex w /\
  w_waiters (snd r) = [] /\
  match os_timers (w_os w) !! t with
  | Some kt =>
      emits w (snd r)
        [Ev tid h (Load PLC_timer) t;
         Ev tid h (timer_settime t 0 memset_itimerspec) 0;
         Ev tid h (Load PLC_timer) t;
         Ev tid h (timer_delete t) 0;
         Ev tid h call__cleanup 0;
         Ev tid h (Store __debug_tick (-1)) 0;
         Ev tid h (pthread_cond_broadcast wait_cond) 0] /\
      w_os (snd r) =
        Os (os_now (w_os w)) (delete t (os_timers (w_os w)))
           (S (os_free_timers (w_os w))) (os_next_id (w_os w))
           (os_sigint (w_os w))
  | None =>
      emits w (snd r)
        [Ev tid h (Load PLC_timer) t;
         Ev tid h (timer_settime t 0 memset_itimerspec) (-1);
         Ev tid h (Load PLC_timer) t;
         Ev tid h (timer_delete t) (-1);
         Ev tid h call__cleanup 0;
         Ev tid h (Store __debug_tick (-1)) 0;
         Ev tid h (pthread_cond_broadcast wait_cond) 0] /\
      w_os (snd r) = w_os w
  end.
Proof.
  intros Ht Hl. cbv zeta. unfold stopPLC, PLC_SetTimer.
  rewrite timerValues_split by (assumption || lia).
  change (split_ns 0 0) with memset_itimerspec.
  destruct (os_timers (w_os w) !! g_PLC_timer (w_glob w)) as [kt|] eqn:E;
    cbn; unfold perform; cbn; unfold os_timer_settime; cbn; rewrite E; cbn;
    unfold os_timer_delete; cbn; rewrite ?lookup_insert_eq, ?E; cbn;
    rewrite ?delete_insert_eq;
    unfold emits; cbn; rewrite <- !app_assoc; repeat split; reflexivity.
Qed.

(** C2 (as the code has it). [stopPLC] has no guard against being called
    again.  On a live timer the first call disarms it, deletes it, calls
    [__cleanup] and aborts the rendezvous; the timer is released.  A second
    call returns as well, after the same seven actions: it asks the OS again
    to disarm and to delete the handle it has already deleted (the OS refuses
    both with -1, which [stopPLC] ignores) and it calls [__cleanup] a second
    time.  The OS state, the globals and the rendezvous are as the first call
    left them. *)
Theorem stopPLC_twice (tid : nat) (w : world) (kt : ktimer) :
  35 <= time_t_bits -> 31 <= long_bits ->
  os_timers (w_os w) !! g_PLC_timer (w_glob w) = Some kt ->
  let t := g_PLC_timer (w_glob w) in
  let h := holds tid w in
  let r1 := run tid stopPLC w in
  let r2 := run tid stopPLC (snd r1) in
  fst r1 = TRun (Ret tt) /\ fst r2 = TRun (Ret tt) /\
  os_timers (w_os (snd r1)) = delete t (os_timers (w_os w)) /\
  os_timers (w_os (snd r1)) !! t = None /\
  os_free_timers (w_os (snd r1)) = S (os_free_timers (w_os w)) /\
  emits w (snd r1)
    [Ev tid h (Load PLC_timer) t;
     Ev tid h (timer_settime t 0 memset_itimerspec) 0;
     Ev tid h (Load PLC_timer) t;
     Ev tid h (timer_delete t) 0;
     Ev tid h call__cleanup 0;
     Ev tid h (Store __debug_tick (-1)) 0;
     Ev tid h (pthread_cond_broadcast wait_cond) 0] /\
  emits (snd r1) (snd r2)
    [Ev tid h (Load PLC_timer) t;
     Ev tid h (timer_settime t 0 memset_itimerspec) (-1);
     Ev tid h (Load PLC_timer) t;
     Ev tid h (timer_delete t) (-1);
     Ev tid h call__cleanup 0;
     Ev tid h (Store __debug_tick (-1)) 0;
     Ev tid h (pthread_cond_broadcast wait_cond) 0] /\
  w_app (snd r1) = ext_cleanup (w_app w) /\
  w_app (snd r2) = ext_cleanup (ext_cleanup (w_app w)) /\
  w_os (snd r2) = w_os (snd r1) /\ w_glob (snd r2) = w_glob (snd r1) /\
  w_heap (snd r2) = w_heap (snd r1) /\ w_mutex (snd r2) = w_mutex (snd r1) /\
  w_waiters (snd r2) = w_waiters (snd r1).
Proof.
  intros Ht Hl Hlive. cbv zeta.
  pose proof (stopPLC_run tid w Ht Hl) as S1. cbv zeta in S1.
  rewrite Hlive in S1.
  destruct S1 as (A1 & A2 & A3 & A4 & A5 & A6 & A7 & A8).
  pose proof (stopPLC_run tid (snd (run tid stopPLC w)) Ht Hl) as S2.
  cbv zeta in S2. unfold holds in S2. rewrite A5, A2, A8 in S2.
  cbn [g_PLC_timer store os_timers] in S2. rewrite lookup_delete_eq in S2.
  destruct S2 as (B1 & B2 & B3 & B4 & B5 & B6 & B7 & B8).
  split; [exact A1|]. split; [exact B1|].
  split; [rewrite A8; reflexivity|].
  split; [rewrite A8; apply lookup_delete_eq|].
  split; [rewrite A8; reflexivity|].
  split; [exact A7|]. split; [exact B7|].
  split; [exact A4|]. split; [rewrite B4, A4; reflexivity|].
  split; [rewrite B8, A8; reflexivity|].
  split; [rewrite B2, A2; reflexivity|].
  split; [rewrite B3; reflexivity|].
  split; [rewrite B5, A5; reflexivity|].
  rewrite B6, A6. reflexivity.
Qed.

(** ** Start *)

Lemma maxval_max (a b : Z) : maxval a b = Z.max a b.
Proof. unfold maxval. destruct (Z.gtb_spec a b); lia. Qed.

Lemma Ttick_exact (c : Z) :
  32 <= ticktime_bits <= 64 ->
  1000000 * Z.max c 1 < 2 ^ (ticktime_bits - 1) ->
  wrap llong_bits (wrap ticktime_bits (1000000 * maxval c 1)) =
  1000000 * Z.max c 1.
Proof.
  intros Hb Hc. rewrite maxval_max.
  assert (R : in_range ticktime_bits (1000000 * Z.max c 1)).
  { unfold in_range. split; [|lia].
    assert (0 < 2 ^ (ticktime_bits - 1)) by (apply Z.pow_pos_nonneg; lia).
    lia. }
  rewrite (wrap_id ticktime_bits) by (lia || assumption).
  apply wrap_id; [reflexivity|].
  apply (in_range_mono ticktime_bits); [unfold llong_bits; lia | assumption].
Qed.

Lemma split_ns_armed (T : Z) (clk : clockid) (sev : sigevent) :
  0 < T -> armed (Ktimer clk sev (split_ns T T)) = true.
Proof.
  intros HT. unfold armed. cbn. case_bool_decide as E; [|reflexivity].
  injection E as E1 E2. unfold giga in *.
  pose proof (Z.div_mod T 1000000000 ltac:(lia)). lia.
Qed.

(** What one call of [startPLC] does to the world. *)
Lemma startPLC_run (tid : nat) (argc argv : Z) (w : world) :
  let c := g_common_ticktime (w_glob w) in
  let T0 := wrap ticktime_bits (1000000 * maxval c 1) in
  let T := wrap llong_bits T0 in
  let h := holds tid w in
  let st := (ext_init argc argv (w_app w)).1 in
  let r := run tid (startPLC argc argv) w in
  let created := os_timer_create CLOCK_REALTIME thread_notify (w_os w) in
  let t1 := from_option fst (g_PLC_timer (w_glob w)) created in
  let o1 := from_option snd (w_os w) created in
  let prefix :=
    [Ev tid h (Load common_ticktime__) c;
     Ev tid h (Store Ttick T0) 0;
     Ev tid h (timer_create CLOCK_REALTIME thread_notify PLC_timer)
        (status created);
     Ev tid h (call__init argc argv) st] in
  g_Ttick (w_glob (snd r)) = T /\
  g_PLC_timer (w_glob (snd r)) = t1 /\
  g_common_ticktime (w_glob (snd r)) = c /\
  g_debug_tick (w_glob (snd r)) = g_debug_tick (w_glob w) /\
  g_tick (w_glob (snd r)) = g_tick (w_glob w) /\
  g_CURRENT_TIME (w_glob (snd r)) = g_CURRENT_TIME (w_glob w) /\
  w_heap (snd r) = w_heap w /\ w_mutex (snd r) = w_mutex w /\
  w_waiters (snd r) = w_waiters w /\
  w_app (snd r) = (ext_init argc argv (w_app w)).2 /\
  if bool_decide (st = 0) then
    let set := os_timer_settime t1 (timerValues T T) o1 in
    fst r = TRun (Ret 0) /\
    emits w (snd r)
      (prefix ++
       [Ev tid h (Load Ttick) T; Ev tid h (Load Ttick) T;
        Ev tid h (Load PLC_timer) t1;
        Ev tid h (timer_settime t1 0 (timerValues T T)) (status set);
        Ev tid h (signal SIGINT catch_signal_fn) 0]) /\
    w_os (snd r) = os_signal catch_signal_fn (default o1 set)
  else
    fst r = TRun (Ret 1) /\ emits w (snd r) prefix /\ w_os (snd r) = o1.
Proof.
  destruct w as [g h a o m ws tr]. cbv zeta. unfold holds, emits. world_norm.
  destruct (os_timer_create CLOCK_REALTIME thread_notify o)
    as [[id o']|] eqn:C; cbn [from_option fst snd status].
  all: case_bool_decide as Hst.
  all: try match goal with
       | |- context [os_timer_settime ?a ?b ?c] =>
           destruct (os_timer_settime a b c) as [o2|] eqn:S
       end.
  all: cbn [default status].
  all: eassert (R : run tid (startPLC argc argv) (World g h a o m ws tr) = _);
    [ unfold startPLC, PLC_SetTimer;
      change (set_sigev_notify_function _ _) with thread_notify;
      step; step;
      prog_norm;
      first [ erewrite run_timer_create_granted by eassumption
            | erewrite run_timer_create_refused by eassumption ];
      glob_norm;
      step;
      first [ rewrite bool_decide_eq_true_2 by assumption
            | rewrite bool_decide_eq_false_2 by assumption ];
      repeat step;
      try (prog_norm;
           first [ erewrite run_timer_settime_done by eassumption
                 | erewrite run_timer_settime_refused by eassumption ];
           glob_norm; repeat step);
      reflexivity
    | rewrite R; clear R; world_norm; glob_norm;
      rewrite <- ?app_assoc; repeat split; reflexivity ].
Qed.

Lemma os_timer_create_refused (clk : clockid) (sev : sigevent) (o : os_state) :
  os_free_timers o = 0%nat -> os_timer_create clk sev o = None.
Proof. intros H. unfold os_timer_create. by rewrite H. Qed.

Lemma os_timer_create_granted (clk : clockid) (sev : sigevent) (o : os_state)
    (n : nat) :
  os_free_timers o = S n ->
  os_timer_create clk sev o =
  Some (os_next_id o,
        Os (os_now o)
           (<[os_next_id o := Ktimer clk sev memset_itimerspec]> (os_timers o))
           n (os_next_id o + 1) (os_sigint o)).
Proof. intros H. unfold os_timer_create. by rewrite H. Qed.

Lemma os_timer_settime_keeps (t : Z) (v : itimerspec) (o : os_state) :
  let o' := default o (os_timer_settime t v o) in
  os_free_timers o' = os_free_timers o /\ os_sigint o' = os_sigint o /\
  os_next_id o' = os_next_id o /\ os_now o' = os_now o.
Proof.
  unfold os_timer_settime. destruct (os_timers o !! t); cbn; auto.
Qed.

(** C8 (as the code has it). When the product
    1_000_000 * max(common_ticktime__, 1) fits the type it is computed in,
    [startPLC] stores exactly that product in [Ttick], and it is positive;
    when [__init] then returns 0, [startPLC] returns 0 after one call of
    [timer_settime] whose initial delay and period are both the exact split
    of [Ttick], and a timer the OS granted is armed with it. *)
Theorem startPLC_period (tid : nat) (argc argv : Z) (w : world) :
  32 <= ticktime_bits <= 64 -> 35 <= time_t_bits -> 31 <= long_bits ->
  1000000 * Z.max (g_common_ticktime (w_glob w)) 1 < 2 ^ (ticktime_bits - 1) ->
  let c := g_common_ticktime (w_glob w) in
  let r := run tid (startPLC argc argv) w in
  let T := g_Ttick (w_glob (snd r)) in
  T = 1000000 * Z.max c 1 /\ 0 < T /\
  ((ext_init argc argv (w_app w)).1 = 0 ->
   fst r = TRun (Ret 0) /\
   (exists es res,
      emits w (snd r) es /\
      count is_timer_settime es = 1%nat /\
      In (Ev tid (holds tid w)
             (timer_settime (g_PLC_timer (w_glob (snd r))) 0 (split_ns T T))
             res) es) /\
   it_value (split_ns T T) = it_interval (split_ns T T) /\
   os_sigint (w_os (snd r)) = Some catch_signal_fn /\
   (os_free_timers (w_os w) <> 0%nat ->
    g_PLC_timer (w_glob (snd r)) = os_next_id (w_os w) /\
    os_timers (w_os (snd r)) !! os_next_id (w_os w) =
      Some (Ktimer CLOCK_REALTIME thread_notify (split_ns T T)) /\
    armed (Ktimer CLOCK_REALTIME thread_notify (split_ns T T)) = true)).
Proof.
  intros Hb Ht Hl Hc. cbv zeta.
  pose proof (startPLC_run tid argc argv w) as R. cbv zeta in R.
  destruct R as (RT & Rt & _ & _ & _ & _ & _ & _ & _ & _ & R).
  rewrite (Ttick_exact _ Hb Hc) in RT, R.
  set (T := 1000000 * Z.max (g_common_ticktime (w_glob w)) 1) in *.
  assert (HT : 0 < T) by (unfold T; lia).
  assert (HTr : 0 <= T < 2 ^ 63).
  { split; [lia|]. eapply Z.lt_le_trans; [exact Hc|].
    apply Z.pow_le_mono_r; lia. }
  rewrite (timerValues_split T T Ht Hl HTr HTr) in R.
  rewrite RT. split; [reflexivity|]. split; [exact HT|].
  intros Hst. rewrite bool_decide_eq_true_2 in R by exact Hst.
  cbv zeta in R. destruct R as (R1 & R2 & R3).
  split; [exact R1|]. split.
  { eexists _, _. split; [exact R2|]. split; [reflexivity|].
    rewrite Rt. apply in_or_app. right. cbn. tauto. }
  split; [reflexivity|].
  split; [rewrite R3; reflexivity|].
  intros Hfree.
  destruct (os_free_timers (w_os w)) as [|n] eqn:F; [congruence|].
  rewrite (os_timer_create_granted _ _ _ _ F) in Rt, R3.
  cbn [from_option fst snd] in Rt, R3.
  split; [exact Rt|].
  rewrite R3. unfold os_timer_settime. cbn [os_timers].
  rewrite lookup_insert_eq.
  cbn [default from_option id os_signal os_timers kt_clock kt_sigev].
  rewrite lookup_insert_eq. split; [reflexivity|].
  apply split_ns_armed. exact HT.
Qed.

(** C3 (as the code has it). When [__init] returns non-zero, [startPLC]
    returns 1 without calling [timer_settime] or [signal], so no timer is
    armed and no handler is installed.  It has called [timer_create] once
    before [__init]: when the OS grants the timer, that timer is live and
    disarmed when [startPLC] returns, and a later [stopPLC] deletes it. *)
Theorem startPLC_init_failure (tid : nat) (argc argv : Z) (w : world) :
  35 <= time_t_bits -> 31 <= long_bits ->
  (ext_init argc argv (w_app w)).1 <> 0 ->
  let r := run tid (startPLC argc argv) w in
  let id := os_next_id (w_os w) in
  fst r = TRun (Ret 1) /\
  (exists es,
     emits w (snd r) es /\
     count is_timer_settime es = 0%nat /\ count is_signal es = 0%nat /\
     count is_timer_create es = 1%nat) /\
  os_sigint (w_os (snd r)) = os_sigint (w_os w) /\
  match os_free_timers (w_os w) with
  | O =>
      w_os (snd r) = w_os w /\
      g_PLC_timer (w_glob (snd r)) = g_PLC_timer (w_glob w)
  | S n =>
      g_PLC_timer (w_glob (snd r)) = id /\
      os_timers (w_os (snd r)) =
        <[id := Ktimer CLOCK_REALTIME thread_notify memset_itimerspec]>
          (os_timers (w_os w)) /\
      os_free_timers (w_os (snd r)) = n /\
      armed (Ktimer CLOCK_REALTIME thread_notify memset_itimerspec) = false /\
      let r2 := run tid stopPLC (snd r) in
      fst r2 = TRun (Ret tt) /\
      os_timers (w_os (snd r2)) !! id = None /\
      os_free_timers (w_os (snd r2)) = S n /\
      exists es2,
        emits (snd r) (snd r2) es2 /\
        In (Ev tid (holds tid w) (timer_delete id) 0) es2
  end.
Proof.
  intros Ht Hl Hst. cbv zeta.
  pose proof (startPLC_run tid argc argv w) as R. cbv zeta in R.
  destruct R as (_ & Rt & _ & _ & _ & _ & _ & Rm & _ & _ & R).
  rewrite bool_decide_eq_false_2 in R by exact Hst.
  destruct R as (R1 & R2 & R3).
  split; [exact R1|]. split.
  { eexists. split; [exact R2|]. repeat split; reflexivity. }
  destruct (os_free_timers (w_os w)) as [|n] eqn:F.
  - rewrite (os_timer_create_refused _ _ _ F) in Rt, R3.
    cbn [from_option] in Rt, R3. rewrite R3. auto.
  - rewrite (os_timer_create_granted _ _ _ _ F) in Rt, R3.
    cbn [from_option fst snd] in Rt, R3.
    split; [rewrite R3; reflexivity|].
    split; [exact Rt|].
    split; [rewrite R3; reflexivity|].
    split; [rewrite R3; reflexivity|].
    split; [reflexivity|].
    pose proof (stopPLC_run tid (snd (run tid (startPLC argc argv) w)) Ht Hl)
      as S.
    cbv zeta in S. unfold holds in S. rewrite Rm, Rt, R3 in S.
    cbn [os_timers os_free_timers] in S. rewrite lookup_insert_eq in S.
    destruct S as (S1 & _ & _ & _ & _ & _ & S2 & S3).
    split; [exact S1|]. rewrite S3. cbn [os_timers os_free_timers].
    split; [apply lookup_delete_eq|]. split; [reflexivity|].
    eexists. split; [exact S2|]. cbn. unfold holds. tauto.
Qed.

(** C7 (as the code has it). [startPLC] does not look at the status of
    [timer_create].  When the OS grants no timer, [timer_create] is called
    once and refused, and [startPLC] still returns 0 when [__init] returns 0
    (after calling [timer_settime] and [signal] once each), and 1 when
    [__init] fails. *)
Theorem startPLC_timer_create_failure (tid : nat) (argc argv : Z) (w : world) :
  os_free_timers (w_os w) = 0%nat ->
  let r := run tid (startPLC argc argv) w in
  let st := (ext_init argc argv (w_app w)).1 in
  fst r = TRun (Ret (if bool_decide (st = 0) then 0 else 1)) /\
  (exists es,
     emits w (snd r) es /\
     count is_timer_create es = 1%nat /\
     In (Ev tid (holds tid w)
            (timer_create CLOCK_REALTIME thread_notify PLC_timer) (-1)) es /\
     count is_timer_settime es =
       (if bool_decide (st = 0) then 1%nat else 0%nat) /\
     count is_signal es = (if bool_decide (st = 0) then 1%nat else 0%nat)) /\
  g_PLC_timer (w_glob (snd r)) = g_PLC_timer (w_glob w) /\
  os_free_timers (w_os (snd r)) = 0%nat.
Proof.
  intros F. cbv zeta.
  pose proof (startPLC_run tid argc argv w) as R. cbv zeta in R.
  destruct R as (_ & Rt & _ & _ & _ & _ & _ & _ & _ & _ & R).
  rewrite (os_timer_create_refused _ _ _ F) in Rt, R.
  cbn [from_option status] in Rt, R.
  case_bool_decide as Hst.
  - cbv zeta in R. destruct R as (R1 & R2 & R3).
    split; [exact R1|]. split.
    { eexists. split; [exact R2|]. cbn. repeat split; try reflexivity. tauto. }
    split; [exact Rt|]. rewrite R3. cbn [os_signal os_free_timers].
    rewrite <- F. apply os_timer_settime_keeps.
  - destruct R as (R1 & R2 & R3).
    split; [exact R1|]. split.
    { eexists. split; [exact R2|]. cbn. repeat split; try reflexivity. tauto. }
    split; [exact Rt|]. rewrite R3. exact F.
Qed.

(** ** The timer callback *)

Lemma PLC_timer_notify_run (tid : nat) (val : Z) (w : world) :
  run tid (PLC_timer_notify val) w =
  (TRun (Ret tt),
   log (Ev tid (holds tid w) call__run 0)
     (set_app (ext_run (w_app w))
        (log (Ev tid (holds tid w)
                 (clock_gettime CLOCK_REALTIME __CURRENT_TIME) 0)
           (set_glob (store_ts __CURRENT_TIME (os_now (w_os w))) w)))).
Proof. reflexivity. Qed.

Lemma fires_trace (tid : nat) (times : list timespec) (w : world) :
  exists es,
    emits w (fires tid times w) es /\
    map ev_act es = times ≫= (fun _ => stamp_then_run).
Proof.
  revert w. induction times as [|t times IH]; intros w.
  - exists []. split; [apply emits_nil | reflexivity].
  - cbn [fires]. rewrite PLC_timer_notify_run. cbn [snd].
    edestruct IH as (es & Hes & Hmap).
    eexists (_ :: _ :: es). split.
    + unfold emits in *. rewrite Hes. cbn. rewrite <- !app_assoc. reflexivity.
    + cbn. rewrite <- Hmap. reflexivity.
Qed.

(** C9. On every fire the callback returns after exactly two actions, in
    this order: it reads the real-time clock into [__CURRENT_TIME], then it
    calls [__run].  It changes nothing else.  Over any number of fires the
    trace is that pair repeated once per fire, so exactly one time stamp
    precedes each call of [__run]. *)
Theorem PLC_timer_notify_stamps_then_runs
    (tid : nat) (val : Z) (w : world) (times : list timespec) :
  let r := run tid (PLC_timer_notify val) w in
  fst r = TRun (Ret tt) /\
  emits w (snd r)
    [Ev tid (holds tid w) (clock_gettime CLOCK_REALTIME __CURRENT_TIME) 0;
     Ev tid (holds tid w) call__run 0] /\
  g_CURRENT_TIME (w_glob (snd r)) = os_now (w_os w) /\
  w_glob (snd r) = store_ts __CURRENT_TIME (os_now (w_os w)) (w_glob w) /\
  w_app (snd r) = ext_run (w_app w) /\
  w_heap (snd r) = w_heap w /\ w_os (snd r) = w_os w /\
  w_mutex (snd r) = w_mutex w /\ w_waiters (snd r) = w_waiters w /\
  exists es,
    emits w (fires tid times w) es /\
    map ev_act es = times ≫= (fun _ => stamp_then_run).
Proof.
  cbv zeta. rewrite PLC_timer_notify_run. cbn [fst snd].
  split; [reflexivity|].
  split; [unfold emits; cbn; by rewrite <- app_assoc|].
  do 7 (split; [reflexivity|]).
  apply fires_trace.
Qed.

(** ** Compare and swap *)

(** C10. [AtomicCompareExchange] returns the value the cell held before the
    call; the cell holds [exchange] afterwards when that value equals
    [compared], and the heap is unchanged otherwise.  Nothing else
    changes. *)
Theorem AtomicCompareExchange_returns_old
    (tid : nat) (w : world) (atomicvar compared exchange old : Z) :
  w_heap w !! atomicvar = Some old ->
  let r := run tid (AtomicCompareExchange atomicvar compared exchange) w in
  fst r = TRun (Ret old) /\
  w_heap (snd r) =
    (if bool_decide (old = compared)
     then <[atomicvar := exchange]> (w_heap w) else w_heap w) /\
  (old = compared -> w_heap (snd r) !! atomicvar = Some exchange) /\
  (old <> compared -> w_heap (snd r) = w_heap w) /\
  w_glob (snd r) = w_glob w /\ w_app (snd r) = w_app w /\
  w_os (snd r) = w_os w /\ w_mutex (snd r) = w_mutex w /\
  w_waiters (snd r) = w_waiters w.
Proof.
  intros Hold. cbv zeta.
  unfold AtomicCompareExchange, act. cbn [run]. unfold perform.
  cbn [exec_action]. rewrite Hold.
  case_bool_decide as Heq; cbn.
  - repeat split; try reflexivity; try congruence.
    intros _. apply lookup_insert_eq.
  - repeat split; try reflexivity; congruence.
Qed.

(** ** The two semantics agree *)

(** A thread that runs alone makes steps of the interleaving semantics. *)
Lemma run_steps {A} (tid : nat) (p : prog A) (w : world) :
  steps tid (TRun p) w (fst (run tid p w)) (snd (run tid p w)).
Proof.
  revert w. induction p as [a|c k IH]; intros w; cbn [run].
  - apply steps_refl.
  - destruct (perform tid c w) as [r w'|w'|] eqn:E; cbn [fst snd].
    + eapply steps_step; [|apply IH]. cbn [step]. rewrite E. reflexivity.
    + eapply steps_step; [|apply steps_refl]. cbn [step]. rewrite E.
      reflexivity.
    + apply steps_refl.
Qed.

Lemma resume_steps {A} (tid : nat) (ts : tstate A) (w : world) :
  steps tid ts w (fst (resume tid ts w)) (snd (resume tid ts w)).
Proof.
  unfold resume. destruct (step tid ts w) as [[ts' w']|] eqn:E.
  - destruct ts' as [p|k]; cbn [fst snd].
    + eapply steps_step; [exact E|]. apply run_steps.
    + eapply steps_step; [exact E|]. apply steps_refl.
  - apply steps_refl.
Qed.

(** ** The rendezvous *)

Lemma InitiateDebugTransfer_run (tid : nat) (g : globals) (h : gmap Z Z)
    (a : app) (o : os_state) (m : option nat) (ws : list nat)
    (tr : list event) :
  run tid InitiateDebugTransfer (World g h a o m ws tr) =
  (TRun (Ret tt),
   World (store __debug_tick (g_tick g) g) h a o m []
     (tr ++
      [Ev tid (owns m tid) (Load __tick) (g_tick g);
       Ev tid (owns m tid) (Store __debug_tick (g_tick g)) 0;
       Ev tid (owns m tid)
          (pthread_cond_broadcast wait_cond) 0])).
Proof.
  unfold InitiateDebugTransfer. do 4 step. rewrite <- !app_assoc.
  reflexivity.
Qed.

Lemma AbortDebug_run (tid : nat) (g : globals) (h : gmap Z Z)
    (a : app) (o : os_state) (m : option nat) (ws : list nat)
    (tr : list event) :
  run tid AbortDebug (World g h a o m ws tr) =
  (TRun (Ret tt),
   World (store __debug_tick (-1) g) h a o m []
     (tr ++
      [Ev tid (owns m tid) (Store __debug_tick (-1)) 0;
       Ev tid (owns m tid)
          (pthread_cond_broadcast wait_cond) 0])).
Proof.
  unfold AbortDebug. do 3 step. rewrite <- !app_assoc. reflexivity.
Qed.

Lemma WaitDebugData_parks (tid : nat) (g : globals) (h : gmap Z Z)
    (a : app) (o : os_state) (ws : list nat) (tr : list event) :
  run tid WaitDebugData (World g h a o None ws tr) =
  (TWait WaitDebugData_woken,
   World g h a o None (tid :: ws)
     (tr ++
      [Ev tid false (pthread_mutex_lock wait_mutex) 0;
       Ev tid true (pthread_cond_wait wait_cond wait_mutex) 0])).
Proof.
  unfold WaitDebugData. step. prog_norm. rewrite run_cond_wait.
  rewrite <- !app_assoc. reflexivity.
Qed.

Lemma WaitDebugData_resumes (tid : nat) (g : globals) (h : gmap Z Z)
    (a : app) (o : os_state) (ws : list nat) (tr : list event) :
  tid ∉ ws ->
  resume tid (TWait WaitDebugData_woken) (World g h a o None ws tr) =
  (TRun (Ret (g_debug_tick g)),
   World g h a o None ws
     (tr ++
      [Ev tid true (pthread_mutex_unlock wait_mutex) 0;
       Ev tid false (Load __debug_tick) (g_debug_tick g)])).
Proof.
  intros Hw. unfold resume. cbn [step w_waiters w_mutex].
  rewrite bool_decide_eq_false_2 by exact Hw.
  unfold set_mutex, WaitDebugData_woken. world_norm.
  do 3 step. rewrite <- !app_assoc. reflexivity.
Qed.

(** C1 (as the code has it). The rendezvous operations access
    [__debug_tick] without holding [wait_mutex].  [InitiateDebugTransfer]
    and [AbortDebug], called by a thread that does not own the mutex, never
    take it: they write the tick and broadcast with the mutex not held.
    [WaitDebugData] owns the mutex only from its lock to its unlock, that
    is around [pthread_cond_wait]; it reads the tick after the unlock. *)
Theorem rendezvous_accesses_outside_mutex (tid : nat) (wp w w2 : world) :
  w_mutex wp <> Some tid ->
  w_mutex w = None ->
  w_mutex w2 = None -> tid ∉ w_waiters w2 ->
  let publish := run tid InitiateDebugTransfer wp in
  let abort := run tid AbortDebug wp in
  let parked := run tid WaitDebugData w in
  let woken := resume tid (fst parked) w2 in
  let publish_events :=
    [Ev tid false (Load __tick) (g_tick (w_glob wp));
     Ev tid false (Store __debug_tick (g_tick (w_glob wp))) 0;
     Ev tid false (pthread_cond_broadcast wait_cond) 0] in
  let abort_events :=
    [Ev tid false (Store __debug_tick (-1)) 0;
     Ev tid false (pthread_cond_broadcast wait_cond) 0] in
  let wait_events :=
    [Ev tid false (pthread_mutex_lock wait_mutex) 0;
     Ev tid true (pthread_cond_wait wait_cond wait_mutex) 0] in
  let woken_events :=
    [Ev tid true (pthread_mutex_unlock wait_mutex) 0;
     Ev tid false (Load __debug_tick) (g_debug_tick (w_glob w2))] in
  fst publish = TRun (Ret tt) /\ emits wp (snd publish) publish_events /\
  w_mutex (snd publish) = w_mutex wp /\
  fst abort = TRun (Ret tt) /\ emits wp (snd abort) abort_events /\
  w_mutex (snd abort) = w_mutex wp /\
  fst parked = TWait WaitDebugData_woken /\
  emits w (snd parked) wait_events /\
  w_mutex (snd parked) = None /\ w_waiters (snd parked) = tid :: w_waiters w /\
  fst woken = TRun (Ret (g_debug_tick (w_glob w2))) /\
  emits w2 (snd woken) woken_events /\ w_mutex (snd woken) = None /\
  unguarded (publish_events ++ abort_events ++ wait_events ++ woken_events)
    = true /\
  guarded publish_events = false /\ guarded abort_events = false /\
  guarded (wait_events ++ woken_events) = false.
Proof.
  intros Hp Hw Hw2 Hin. cbv zeta.
  destruct wp as [gp hp ap op mp wsp trp], w as [g h a o m ws tr],
    w2 as [g2 h2 a2 o2 m2 ws2 tr2].
  cbn [w_mutex w_waiters w_glob] in *. subst m m2.
  rewrite InitiateDebugTransfer_run, AbortDebug_run, WaitDebugData_parks.
  cbn [fst snd]. rewrite WaitDebugData_resumes by exact Hin.
  unfold owns. rewrite bool_decide_eq_false_2 by exact Hp.
  unfold emits. world_norm. repeat split; reflexivity.
Qed.

(** ** The rendezvous: publishing *)

Lemma cycle_publish_run (tid : nat) (t : Z) (g : globals) (h : gmap Z Z)
    (a : app) (o : os_state) (m : option nat) (ws : list nat)
    (tr : list event) :
  exists tr',
    run tid (cycle_publish t) (World g h a o m ws tr) =
    (TRun (Ret tt),
     World (store __debug_tick (wrap int_bits t) (store __tick t g))
       h a o m [] tr').
Proof.
  unfold cycle_publish, InitiateDebugTransfer. do 5 step.
  eexists. reflexivity.
Qed.

Lemma publishes_last (tid : nat) (ts : list Z) (t : Z) (w : world) :
  exists g' tr',
    run tid (publishes (ts ++ [t])) w =
    (TRun (Ret tt),
     World g' (w_heap w) (w_app w) (w_os w) (w_mutex w) [] tr') /\
    g_debug_tick g' = wrap int_bits (wrap int_bits t).
Proof.
  revert w. induction ts as [|x ts IH]; intros [g h a o m ws tr];
    cbn [Datatypes.app publishes]; world_norm.
  - destruct (cycle_publish_run tid t g h a o m ws tr) as [tr' E].
    rewrite (run_bind _ _ _ _ _ _ E). rewrite run_ret.
    eexists _, _. split; reflexivity.
  - destruct (cycle_publish_run tid x g h a o m ws tr) as [tr' E].
    rewrite (run_bind _ _ _ _ _ _ E).
    destruct (IH (World (store __debug_tick (wrap int_bits x)
                           (store __tick x g)) h a o m [] tr'))
      as (g' & tr'' & E' & Hg).
    cbn [w_heap w_app w_os w_mutex] in E'. rewrite E'.
    eexists _, _. split; [reflexivity|exact Hg].
Qed.

Lemma not_in_spurious_wake (tid : nat) (ws : list nat) :
  tid ∉ filter (fun t => t ≠ tid) ws.
Proof. rewrite list_elem_of_filter. tauto. Qed.

(** C4. After any sequence of publishes that ends with the cycle counter at
    [t], the stored tick is [t].  A thread that then calls [WaitDebugData]
    parks; woken with no publish in between it returns [t], the latest
    value and no earlier one; woken by later publishes it returns the last
    of those. *)
Theorem publishes_coalesce
    (plc obs : nat) (w : world) (ts ts' : list Z) (t : Z) :
  w_mutex w = None -> in_range int_bits t ->
  let published := run plc (publishes (ts ++ [t])) w in
  let parked := run obs WaitDebugData (snd published) in
  fst published = TRun (Ret tt) /\
  g_debug_tick (w_glob (snd published)) = t /\
  fst parked = TWait WaitDebugData_woken /\
  obs ∈ w_waiters (snd parked) /\
  g_debug_tick (w_glob (snd parked)) = t /\
  fst (resume obs (fst parked) (spurious_wake obs (snd parked))) =
    TRun (Ret t) /\
  forall t', in_range int_bits t' ->
    fst (resume obs (fst parked)
           (snd (run plc (publishes (ts' ++ [t'])) (snd parked)))) =
    TRun (Ret t').
Proof.
  intros Hm Ht. cbv zeta.
  destruct (publishes_last plc ts t w) as (g1 & tr1 & E1 & Hg1).
  rewrite Hm in E1. rewrite E1. cbn [fst snd].
  rewrite (wrap_id int_bits t) in Hg1 by (done || exact Ht).
  rewrite (wrap_id int_bits t) in Hg1 by (done || exact Ht).
  rewrite WaitDebugData_parks. cbn [fst snd]. world_norm.
  split; [reflexivity|]. split; [exact Hg1|]. split; [reflexivity|].
  split; [apply list_elem_of_here|]. split; [exact Hg1|]. split.
  - unfold spurious_wake, set_waiters. world_norm.
    rewrite WaitDebugData_resumes by apply not_in_spurious_wake.
    cbn [fst]. rewrite Hg1. reflexivity.
  - intros t' Ht'.
    destruct (publishes_last plc ts' t'
                (World g1 (w_heap w) (w_app w) (w_os w) None [obs]
                   (tr1 ++
                    [Ev obs false (pthread_mutex_lock wait_mutex) 0;
                     Ev obs true (pthread_cond_wait wait_cond wait_mutex) 0])))
      as (g2 & tr2 & E2 & Hg2).
    cbn [w_heap w_app w_os w_mutex] in E2. rewrite E2. cbn [snd].
    rewrite WaitDebugData_resumes by apply not_elem_of_nil.
    cbn [fst]. rewrite Hg2.
    rewrite (wrap_id int_bits t'), (wrap_id int_bits t') by (done || exact Ht').
    reflexivity.
Qed.

(** ** The rendezvous: abort *)

(** C5. After [AbortDebug] the stored tick is -1, which is negative and so
    no cycle number; no thread is left parked.  A second call, by any
    thread, returns and leaves every part of the state as the first call
    left it. *)
Theorem AbortDebug_sentinel_idempotent (tid tid' : nat) (w : world) :
  let r1 := run tid AbortDebug w in
  let r2 := run tid' AbortDebug (snd r1) in
  fst r1 = TRun (Ret tt) /\
  g_debug_tick (w_glob (snd r1)) = -1 /\
  g_debug_tick (w_glob (snd r1)) < 0 /\
  w_waiters (snd r1) = [] /\
  fst r2 = TRun (Ret tt) /\
  same_state (snd r1) (snd r2) /\
  g_debug_tick (w_glob (snd r2)) = -1.
Proof.
  cbv zeta. unfold same_state. cbn.
  repeat split; reflexivity.
Qed.

(** ** [PLC_SetTimer] on any argument *)


Lemma lldiv_any (n : Z) :
  in_range llong_bits n ->
  lldiv n 1000000000 = Lldiv (Z.quot n giga) (Z.rem n giga) /\
  - 2 ^ 34 < Z.quot n giga < 2 ^ 34 /\ - giga < Z.rem n giga < giga /\
  giga * Z.quot n giga + Z.rem n giga = n /\
  (0 <= n -> 0 <= Z.quot n giga /\ 0 <= Z.rem n giga) /\
  (n <= 0 -> Z.quot n giga <= 0 /\ Z.rem n giga <= 0).
Proof.
  unfold lldiv, in_range, llong_bits, giga. change (64 - 1) with 63.
  intros Hn.
  pose proof (Z.quot_rem' n 1000000000) as E.
  assert (B : - 1000000000 < Z.rem n 1000000000 < 1000000000 /\
              (0 <= n -> 0 <= Z.rem n 1000000000) /\
              (n <= 0 -> Z.rem n 1000000000 <= 0)).
  { pose proof (Z.rem_bound_abs n 1000000000 ltac:(lia)).
    pose proof (Z.rem_nonneg n 1000000000 ltac:(lia)).
    pose proof (Z.rem_nonpos n 1000000000 ltac:(lia)). lia. }
  assert (Q : - 2 ^ 34 < Z.quot n 1000000000 < 2 ^ 34) by lia.
  rewrite !wrap_id by (unfold in_range; change (64 - 1) with 63; lia).
  repeat split; lia.
Qed.

Lemma timerValues_truncated (next period : Z) :
  35 <= time_t_bits -> 31 <= long_bits ->
  in_range llong_bits next -> in_range llong_bits period ->
  timerValues next period =
  Itimerspec (Timespec (Z.quot period giga) (Z.rem period giga))
             (Timespec (Z.quot next giga) (Z.rem next giga)).
Proof.
  intros Ht Hl Hn Hp. unfold timerValues.
  destruct (lldiv_any next Hn) as (En & Qn & Rn & _).
  destruct (lldiv_any period Hp) as (Ep & Qp & Rp & _).
  rewrite En, Ep. cbn [quot rem]. unfold to_time_t, to_long.
  unfold giga in *.
  rewrite !(wrap_id time_t_bits)
    by (lia || (apply (in_range_mono 35); [lia|unfold in_range; lia])).
  rewrite !(wrap_id long_bits)
    by (lia || (apply (in_range_mono 31); [lia|unfold in_range; lia])).
  reflexivity.
Qed.

Lemma truncated_split_quot_rem (n : Z) :
  in_range llong_bits n ->
  truncated_split n (Timespec (Z.quot n giga) (Z.rem n giga)).
Proof.
  intros Hn. destruct (lldiv_any n Hn) as (_ & Q & R & E & S1 & S2).
  unfold truncated_split. cbn [tv_sec tv_nsec].
  repeat split; try reflexivity; lia.
Qed.

(** X1. [PLC_SetTimer] splits with a division that truncates toward zero.
    For every [long long] argument, negative ones included, on a platform
    whose [time_t] has at least 35 bits and whose [long] has at least 31,
    the specification handed to [timer_settime] holds the truncated quotient
    and the remainder by 1_000_000_000; seconds and nanoseconds add up to
    the argument, the nanoseconds stay strictly between -1_000_000_000 and
    1_000_000_000 and have the sign of the argument.  A negative argument
    therefore gives a specification with a negative field. *)
Theorem PLC_SetTimer_truncates_toward_zero
    (tid : nat) (w : world) (next period : Z) :
  35 <= time_t_bits -> 31 <= long_bits ->
  in_range llong_bits next -> in_range llong_bits period ->
  let t := g_PLC_timer (w_glob w) in
  let v := timerValues next period in
  let r := run tid (PLC_SetTimer next period) w in
  fst r = TRun (Ret tt) /\
  (exists res,
     emits w (snd r)
       [Ev tid (holds tid w) (Load PLC_timer) t;
        Ev tid (holds tid w) (timer_settime t 0 v) res]) /\
  truncated_split next (it_value v) /\
  truncated_split period (it_interval v) /\
  (next < 0 -> tv_sec (it_value v) < 0 \/ tv_nsec (it_value v) < 0) /\
  (period < 0 -> tv_sec (it_interval v) < 0 \/ tv_nsec (it_interval v) < 0).
Proof.
  intros Ht Hl Hn Hp. cbv zeta.
  pose proof (PLC_SetTimer_run tid w next period) as R. cbv zeta in R.
  destruct R as (R1 & _ & _ & _ & _ & _ & R2).
  split; [exact R1|]. split.
  { destruct (os_timers (w_os w) !! g_PLC_timer (w_glob w));
      destruct R2 as [R2 _]; eexists; exact R2. }
  rewrite (timerValues_truncated next period Ht Hl Hn Hp).
  cbn [it_value it_interval].
  pose proof (truncated_split_quot_rem next Hn) as Tn.
  pose proof (truncated_split_quot_rem period Hp) as Tp.
  split; [exact Tn|]. split; [exact Tp|].
  unfold truncated_split in Tn, Tp. cbn [tv_sec tv_nsec] in *.
  unfold giga in *. split; intros; lia.
Qed.



(** ** Start and stop together *)

(** The OS state a call of [startPLC] leaves when the OS grants the timer. *)
Lemma startPLC_granted (tid : nat) (argc argv : Z) (w : world) (n : nat) :
  os_free_timers (w_os w) = S n ->
  let id := os_next_id (w_os w) in
  let st := (ext_init argc argv (w_app w)).1 in
  let r := run tid (startPLC argc argv) w in
  let T := g_Ttick (w_glob (snd r)) in
  fst r = TRun (Ret (if bool_decide (st = 0) then 0 else 1)) /\
  g_PLC_timer (w_glob (snd r)) = id /\
  w_os (snd r) =
    Os (os_now (w_os w))
       (<[id := Ktimer CLOCK_REALTIME thread_notify
                  (if bool_decide (st = 0) then timerValues T T
                   else memset_itimerspec)]> (os_timers (w_os w)))
       n (id + 1)
       (if bool_decide (st = 0) then Some catch_signal_fn
        else os_sigint (w_os w)).
Proof.
  intros F. cbv zeta.
  pose proof (startPLC_run tid argc argv w) as R. cbv zeta in R.
  destruct R as (RT & Rt & _ & _ & _ & _ & _ & _ & _ & _ & R).
  rewrite (os_timer_create_granted _ _ _ _ F) in Rt, R.
  cbn [from_option fst snd] in Rt, R. rewrite RT.
  case_bool_decide as Hst.
  - cbv zeta in R. destruct R as (R1 & _ & R3).
    split; [exact R1|]. split; [exact Rt|]. rewrite R3.
    unfold os_timer_settime. cbn [os_timers]. rewrite lookup_insert_eq.
    cbn [default from_option id os_signal os_timers kt_clock kt_sigev os_now
         os_free_timers os_next_id os_sigint].
    rewrite insert_insert_eq. reflexivity.
  - destruct R as (R1 & _ & R3).
    split; [exact R1|]. split; [exact Rt|]. exact R3.
Qed.

(** X4. A start followed by a stop gives the timer back.  When the OS
    grants the timer (under an id that is not in use), [startPLC] leaves it
    live whatever [__init] returns, and the following [stopPLC] deletes it:
    the table of timers and the number of timers the OS can still grant are
    as before the start.  [stopPLC] does not uninstall the handler of
    SIGINT that a successful start installed, and it leaves [PLC_timer]
    holding the id of the deleted timer; [__cleanup] has run after
    [__init], the stored tick is -1 and nobody is parked. *)
Theorem startPLC_then_stopPLC
    (tid tid' : nat) (argc argv : Z) (w : world) (n : nat) :
  35 <= time_t_bits -> 31 <= long_bits ->
  os_free_timers (w_os w) = S n ->
  os_timers (w_os w) !! os_next_id (w_os w) = None ->
  let st := (ext_init argc argv (w_app w)).1 in
  let started := run tid (startPLC argc argv) w in
  let stopped := run tid' stopPLC (snd started) in
  fst started = TRun (Ret (if bool_decide (st = 0) then 0 else 1)) /\
  fst stopped = TRun (Ret tt) /\
  is_Some (os_timers (w_os (snd started)) !! os_next_id (w_os w)) /\
  os_free_timers (w_os (snd started)) = n /\
  os_timers (w_os (snd stopped)) = os_timers (w_os w) /\
  os_free_timers (w_os (snd stopped)) = S n /\
  os_sigint (w_os (snd stopped)) =
    (if bool_decide (st = 0) then Some catch_signal_fn
     else os_sigint (w_os w)) /\
  w_app (snd stopped) = ext_cleanup (ext_init argc argv (w_app w)).2 /\
  g_debug_tick (w_glob (snd stopped)) = -1 /\
  w_waiters (snd stopped) = [] /\
  g_PLC_timer (w_glob (snd stopped)) = os_next_id (w_os w) /\
  w_heap (snd stopped) = w_heap w /\ w_mutex (snd stopped) = w_mutex w.
Proof.
  intros Ht Hl F Hfresh. cbv zeta.
  pose proof (startPLC_granted tid argc argv w n F) as G. cbv zeta in G.
  destruct G as (G1 & G2 & G3).
  pose proof (startPLC_run tid argc argv w) as R. cbv zeta in R.
  destruct R as (_ & _ & _ & _ & _ & _ & Rh & Rm & _ & Ra & _).
  pose proof (stopPLC_run tid' (snd (run tid (startPLC argc argv) w)) Ht Hl)
    as S.
  cbv zeta in S. rewrite G2, G3 in S. cbn [os_timers] in S.
  rewrite lookup_insert_eq in S.
  destruct S as (S1 & S2 & S3 & S4 & S5 & S6 & _ & S8).
  cbn [os_now os_timers os_free_timers os_next_id os_sigint] in S8.
  rewrite delete_insert_id in S8 by exact Hfresh.
  split; [exact G1|]. split; [exact S1|].
  rewrite G3, S8. cbn [os_timers os_free_timers os_sigint].
  rewrite lookup_insert_eq.
  split; [eauto|]. do 4 (split; [reflexivity|]).
  split; [rewrite S4, Ra; reflexivity|].
  split; [rewrite S2; reflexivity|].
  split; [exact S6|].
  split; [rewrite S2; cbn [store g_PLC_timer]; exact G2|].
  split; [rewrite S3; exact Rh|]. rewrite S5. exact Rm.
Qed.

(** X5. A second [startPLC] without a [stopPLC] in between loses the first
    timer.  [timer_create] overwrites [PLC_timer] with the id of the second
    timer, so the first one, armed with the period [Ttick] by the first
    start, can no longer be reached: the following [stopPLC] deletes the
    second timer only, and the first is still live and armed after it, and
    after any further [stopPLC]. *)
Theorem startPLC_twice_leaks_a_timer
    (tid : nat) (argc argv argc' argv' : Z) (w : world) (n : nat) :
  32 <= ticktime_bits <= 64 -> 35 <= time_t_bits -> 31 <= long_bits ->
  1000000 * Z.max (g_common_ticktime (w_glob w)) 1 < 2 ^ (ticktime_bits - 1) ->
  os_free_timers (w_os w) = S (S n) ->
  (ext_init argc argv (w_app w)).1 = 0 ->
  let id := os_next_id (w_os w) in
  let T := 1000000 * Z.max (g_common_ticktime (w_glob w)) 1 in
  let first := Ktimer CLOCK_REALTIME thread_notify (split_ns T T) in
  let s1 := run tid (startPLC argc argv) w in
  let s2 := run tid (startPLC argc' argv') (snd s1) in
  let stopped := run tid stopPLC (snd s2) in
  let again := run tid stopPLC (snd stopped) in
  g_PLC_timer (w_glob (snd s1)) = id /\
  g_PLC_timer (w_glob (snd s2)) = id + 1 /\
  os_timers (w_os (snd s2)) !! id = Some first /\
  is_Some (os_timers (w_os (snd s2)) !! (id + 1)) /\
  fst stopped = TRun (Ret tt) /\
  os_timers (w_os (snd stopped)) !! (id + 1) = None /\
  os_timers (w_os (snd stopped)) !! id = Some first /\
  armed first = true /\
  os_free_timers (w_os (snd stopped)) = S n /\
  fst again = TRun (Ret tt) /\
  w_os (snd again) = w_os (snd stopped).
Proof.
  intros Hb Ht Hl Hc F Hst. cbv zeta.
  assert (HT : 0 < 1000000 * Z.max (g_common_ticktime (w_glob w)) 1) by lia.
  assert (HTr : 0 <= 1000000 * Z.max (g_common_ticktime (w_glob w)) 1 < 2 ^ 63).
  { split; [lia|]. eapply Z.lt_le_trans; [exact Hc|].
    apply Z.pow_le_mono_r; lia. }
  pose proof (startPLC_run tid argc argv w) as R. cbv zeta in R.
  destruct R as (RT & _).
  pose proof (startPLC_granted tid argc argv w (S n) F) as G. cbv zeta in G.
  destruct G as (_ & G2 & G3).
  remember (run tid (startPLC argc argv) w) as r1 eqn:E1. clear E1.
  destruct r1 as [x1 w1]. cbn [fst snd] in *. clear x1.
  rewrite (Ttick_exact _ Hb Hc) in RT.
  rewrite bool_decide_eq_true_2, RT in G3 by exact Hst.
  rewrite (timerValues_split _ _ Ht Hl HTr HTr) in G3.
  assert (F1 : os_free_timers (w_os w1) = S n) by (rewrite G3; reflexivity).
  pose proof (startPLC_granted tid argc' argv' w1 n F1) as G'.
  cbv zeta in G'. destruct G' as (_ & G2' & G3').
  remember (run tid (startPLC argc' argv') w1) as r2 eqn:E2. clear E2.
  destruct r2 as [x2 w2]. cbn [fst snd] in *. clear x2.
  rewrite G3 in G2', G3'.
  cbn [os_now os_timers os_free_timers os_next_id os_sigint] in G2', G3'.
  pose proof (stopPLC_run tid w2 Ht Hl) as S. cbv zeta in S.
  remember (run tid stopPLC w2) as r3 eqn:E3. clear E3.
  destruct r3 as [x3 w3]. cbn [fst snd] in *.
  rewrite G2', G3' in S. cbn [os_timers] in S.
  rewrite lookup_insert_eq in S.
  destruct S as (S1 & S2 & _ & _ & _ & _ & _ & S8).
  cbn [os_now os_timers os_free_timers os_next_id os_sigint] in S8.
  rewrite delete_insert_eq in S8.
  pose proof (stopPLC_run tid w3 Ht Hl) as S'. cbv zeta in S'.
  remember (run tid stopPLC w3) as r4 eqn:E4. clear E4.
  destruct r4 as [x4 w4]. cbn [fst snd] in *.
  rewrite S2, S8 in S'. cbn [store g_PLC_timer os_timers] in S'.
  rewrite G2', lookup_delete_eq in S'.
  destruct S' as (S1' & _ & _ & _ & _ & _ & _ & S8').
  assert (Hne : os_next_id (w_os w) + 1 <> os_next_id (w_os w)) by lia.
  split; [exact G2|]. split; [exact G2'|].
  rewrite G3'. cbn [os_timers].
  rewrite lookup_insert_ne, !lookup_insert_eq by exact Hne.
  split; [reflexivity|]. split; [eauto|]. split; [exact S1|].
  rewrite S8. cbn [os_timers os_free_timers].
  rewrite lookup_delete_eq, lookup_delete_ne, lookup_insert_eq by exact Hne.
  split; [reflexivity|]. split; [reflexivity|].
  split; [apply split_ns_armed; exact HT|].
  split; [reflexivity|]. split; [exact S1'|]. exact S8'.
Qed.

(** X6. [startPLC] does not reset the rendezvous.  After a [stopPLC] the
    stored tick is -1, and it is still -1 after the next [startPLC], which
    leaves [__tick], the mutex and the wait list alone: an observer released
    by the stop that runs on only after the restart returns -1, and so does
    one that waits after the restart and is woken before the first
    publish. *)
Theorem restart_keeps_the_sentinel
    (tid obs : nat) (argc argv : Z) (w : world) :
  35 <= time_t_bits -> 31 <= long_bits ->
  w_mutex w = None ->
  let stopped := snd (run tid stopPLC w) in
  let restarted := snd (run tid (startPLC argc argv) stopped) in
  let late := run obs WaitDebugData restarted in
  g_debug_tick (w_glob stopped) = -1 /\
  g_debug_tick (w_glob restarted) = -1 /\
  g_tick (w_glob restarted) = g_tick (w_glob w) /\
  w_mutex restarted = None /\ w_waiters restarted = [] /\
  fst (resume obs (TWait WaitDebugData_woken) restarted) = TRun (Ret (-1)) /\
  fst late = TWait WaitDebugData_woken /\
  fst (resume obs (fst late) (spurious_wake obs (snd late))) =
    TRun (Ret (-1)).
Proof.
  intros Ht Hl Hm. cbv zeta.
  pose proof (stopPLC_run tid w Ht Hl) as S. cbv zeta in S.
  destruct S as (_ & S2 & _ & _ & S5 & S6 & _).
  remember (run tid stopPLC w) as r1 eqn:E1. clear E1.
  destruct r1 as [x1 w1]. cbn [fst snd] in *.
  pose proof (startPLC_run tid argc argv w1) as R. cbv zeta in R.
  destruct R as (_ & _ & _ & Rd & Rk & _ & _ & Rm & Rw & _).
  remember (run tid (startPLC argc argv) w1) as r2 eqn:E2. clear E2.
  destruct r2 as [x2 [g2 h2 a2 o2 m2 ws2 tr2]].
  cbn [fst snd w_glob w_mutex w_waiters] in *.
  rewrite S2 in Rd, Rk. rewrite S5, Hm in Rm. rewrite S6 in Rw.
  cbn [store g_debug_tick g_tick] in Rd, Rk. subst m2 ws2.
  rewrite S2. cbn [store g_debug_tick].
  rewrite WaitDebugData_resumes by apply not_elem_of_nil.
  rewrite WaitDebugData_parks. cbn [fst snd].
  unfold spurious_wake, set_waiters. world_norm.
  rewrite WaitDebugData_resumes by apply not_in_spurious_wake.
  cbn [fst]. rewrite Rd. repeat split; try reflexivity. exact Rk.
Qed.

(** ** Several observers *)

Lemma park_all_spec (obs : list nat) (g : globals) (h : gmap Z Z) (a : app)
    (o : os_state) (ws : list nat) (tr : list event) :
  exists tr',
    park_all obs (World g h a o None ws tr) =
    World g h a o None (reverse obs ++ ws) tr'.
Proof.
  revert ws tr. induction obs as [|t obs IH]; intros ws tr; cbn [park_all].
  - eexists. reflexivity.
  - rewrite WaitDebugData_parks. cbn [snd].
    edestruct IH as [tr' E]. rewrite E. eexists.
    rewrite reverse_cons, <- app_assoc. reflexivity.
Qed.

Lemma resume_all_spec (obs : list nat) (g : globals) (h : gmap Z Z) (a : app)
    (o : os_state) (tr : list event) :
  exists tr',
    resume_all obs (World g h a o None [] tr) =
    ((fun _ => Some (g_debug_tick g)) <$> obs, World g h a o None [] tr').
Proof.
  revert tr. induction obs as [|t obs IH]; intros tr; cbn [resume_all].
  - eexists. reflexivity.
  - rewrite WaitDebugData_resumes by apply not_elem_of_nil.
    cbn [fst snd returned]. edestruct IH as [tr' E]. rewrite E.
    eexists. reflexivity.
Qed.

(** X7. A broadcast releases every observer that is parked.  Observers that
    have called [WaitDebugData] one after the other are all in the wait
    list and cannot move.  After one publish of the tick [t] nobody is
    parked, and the observers, running on in any order, all return [t];
    after one [AbortDebug] they all return -1. *)
Theorem broadcast_releases_every_observer
    (plc : nat) (obs order : list nat) (w : world) (t : Z) :
  w_mutex w = None -> in_range int_bits t -> order ≡ₚ obs ->
  let parked := park_all obs w in
  let published := snd (run plc (cycle_publish t) parked) in
  let aborted := snd (run plc AbortDebug parked) in
  w_mutex parked = None /\
  (forall o, o ∈ obs ->
     o ∈ w_waiters parked /\
     step o (TWait WaitDebugData_woken) parked = None) /\
  w_waiters published = [] /\ w_waiters aborted = [] /\
  fst (resume_all order published) = (fun _ => Some t) <$> order /\
  fst (resume_all order aborted) = (fun _ => Some (-1)) <$> order.
Proof.
  intros Hm Ht _. cbv zeta. destruct w as [g h a o m ws tr].
  cbn [w_mutex] in Hm. subst m.
  destruct (park_all_spec obs g h a o ws tr) as [tr1 E1]. rewrite E1.
  destruct (cycle_publish_run plc t g h a o None (reverse obs ++ ws) tr1)
    as [tr2 E2].
  rewrite E2, AbortDebug_run. world_norm.
  assert (Hin : forall o', o' ∈ obs -> o' ∈ reverse obs ++ ws).
  { intros o' Ho. apply elem_of_app. left. by apply elem_of_reverse. }
  split; [reflexivity|]. split.
  { intros o' Ho. split; [by apply Hin|].
    cbn [step w_waiters]. rewrite bool_decide_eq_true_2 by (by apply Hin).
    reflexivity. }
  split; [reflexivity|]. split; [reflexivity|].
  edestruct resume_all_spec as [tr3 E3]. rewrite E3. clear E3.
  edestruct resume_all_spec as [tr4 E4]. rewrite E4. clear E4.
  cbn [fst store g_debug_tick].
  rewrite !(wrap_id int_bits t) by (done || exact Ht).
  split; reflexivity.
Qed.

(** X8. [stopPLC] releases every observer parked in [WaitDebugData]: when it
    returns nobody is parked, the stored tick is -1, and the observers,
    running on in any order, all return -1. *)
Theorem stopPLC_releases_every_observer
    (ctl : nat) (obs order : list nat) (w : world) :
  35 <= time_t_bits -> 31 <= long_bits ->
  w_mutex w = None -> order ≡ₚ obs ->
  let parked := park_all obs w in
  let stopped := run ctl stopPLC parked in
  (forall o, o ∈ obs -> o ∈ w_waiters parked) /\
  fst stopped = TRun (Ret tt) /\
  w_waiters (snd stopped) = [] /\
  g_debug_tick (w_glob (snd stopped)) = -1 /\
  fst (resume_all order (snd stopped)) = (fun _ => Some (-1)) <$> order.
Proof.
  intros Ht Hl Hm _. cbv zeta. destruct w as [g h a o m ws tr].
  cbn [w_mutex] in Hm. subst m.
  destruct (park_all_spec obs g h a o ws tr) as [tr1 E1]. rewrite E1.
  pose proof (stopPLC_run ctl (World g h a o None (reverse obs ++ ws) tr1)
                Ht Hl) as S.
  cbv zeta in S. destruct S as (S1 & S2 & _ & _ & S5 & S6 & _).
  remember (run ctl stopPLC (World g h a o None (reverse obs ++ ws) tr1))
    as r eqn:Er.
  clear Er. destruct r as [x [g' h' a' o' m' ws' tr']].
  cbn [fst snd w_glob w_mutex w_waiters] in *. subst x g' m' ws'.
  split; [intros o0 Ho; apply elem_of_app; left; by apply elem_of_reverse|].
  split; [reflexivity|]. split; [reflexivity|]. split; [reflexivity|].
  edestruct resume_all_spec as [tr3 E3]. rewrite E3. reflexivity.
Qed.

(** X9. [WaitDebugData] does not look at [__debug_tick] before it waits.
    Run alone it never returns, from any world: it parks, or it blocks on a
    taken mutex.  In particular a call made after [AbortDebug] parks, with
    the sentinel -1 already stored, and the caller cannot move until a later
    wake-up. *)
Theorem WaitDebugData_never_returns_unwoken (ctl obs : nat) (w : world) :
  returned (fst (run obs WaitDebugData w)) = None /\
  (w_mutex w = None ->
   let aborted := snd (run ctl AbortDebug w) in
   let parked := run obs WaitDebugData aborted in
   g_debug_tick (w_glob aborted) = -1 /\
   fst parked = TWait WaitDebugData_woken /\
   w_waiters (snd parked) = [obs] /\
   g_debug_tick (w_glob (snd parked)) = -1 /\
   step obs (fst parked) (snd parked) = None).
Proof.
  destruct w as [g h a o m ws tr]. split.
  - destruct m as [owner|].
    + reflexivity.
    + rewrite WaitDebugData_parks. reflexivity.
  - cbn [w_mutex]. intros ->. cbv zeta. rewrite AbortDebug_run. cbn [snd].
    rewrite WaitDebugData_parks. world_norm.
    split; [reflexivity|]. split; [reflexivity|]. split; [reflexivity|].
    split; [reflexivity|]. cbn [step w_waiters].
    rewrite bool_decide_eq_true_2 by apply list_elem_of_here. reflexivity.
Qed.

(** ** A broadcast that comes too early *)

(** X10. A broadcast that comes between the lock and the wait of
    [WaitDebugData] is lost, from any world whose mutex is free: the
    observer locks, the PLC thread runs [InitiateDebugTransfer] (or
    [AbortDebug]) to its end without taking the mutex, the observer then
    parks.  The tick (or the sentinel -1) is stored, the observer is in the
    wait list and has not returned, and no thread can move. *)
Theorem broadcast_before_wait_is_lost (w : world) :
  w_mutex w = None ->
  let observer := 0%nat in
  let plc := 1%nat in
  let publishing :=
    pool_exec [Sched observer; Sched plc; Sched plc; Sched plc;
               Sched observer]
      ([TRun WaitDebugData; TRun (InitiateDebugTransfer ;; mret 0)], w) in
  let aborting :=
    pool_exec [Sched observer; Sched plc; Sched plc; Sched observer]
      ([TRun WaitDebugData; TRun (AbortDebug ;; mret 0)], w) in
  (exists w',
     publishing = Some ([TWait WaitDebugData_woken; TRun (Ret 0)], w') /\
     w_waiters w' = [observer] /\
     g_debug_tick (w_glob w') = wrap int_bits (g_tick (w_glob w)) /\
     pool_step (Sched observer)
       ([TWait WaitDebugData_woken; TRun (Ret 0)], w') = None /\
     pool_step (Sched plc)
       ([TWait WaitDebugData_woken; TRun (Ret 0)], w') = None) /\
  (exists w',
     aborting = Some ([TWait WaitDebugData_woken; TRun (Ret 0)], w') /\
     w_waiters w' = [observer] /\
     g_debug_tick (w_glob w') = -1 /\
     pool_step (Sched observer)
       ([TWait WaitDebugData_woken; TRun (Ret 0)], w') = None /\
     pool_step (Sched plc)
       ([TWait WaitDebugData_woken; TRun (Ret 0)], w') = None).
Proof.
  destruct w as [g h a o m ws tr]. cbn [w_mutex]. intros ->. cbv zeta.
  split; eexists; (split; [reflexivity|]); repeat split; reflexivity.
Qed.

(** ** Compare and swap between two threads *)

Lemma AtomicCompareExchange_step (tid : nat) (w : world)
    (atomicvar compared exchange old : Z) :
  w_heap w !! atomicvar = Some old ->
  exists w',
    step tid (TRun (AtomicCompareExchange atomicvar compared exchange)) w =
      Some (TRun (Ret old), w') /\
    w_heap w' =
      (if bool_decide (old = compared)
       then <[atomicvar := exchange]> (w_heap w) else w_heap w).
Proof.
  intros H. unfold AtomicCompareExchange, act. cbn [step]. unfold perform.
  cbn [exec_action]. rewrite H. case_bool_decide; eexists; split; reflexivity.
Qed.

(** X11. Two threads race with [AtomicCompareExchange (atomicvar, free,
    taken)] on a cell that holds [free]: in either order of the two calls
    the thread that is first gets [free] back and the other gets [taken],
    so exactly one of them sees [free]; the cell holds [taken] at the
    end. *)
Theorem AtomicCompareExchange_one_winner
    (w : world) (atomicvar free taken : Z) :
  w_heap w !! atomicvar = Some free -> free <> taken ->
  let cas := AtomicCompareExchange atomicvar free taken in
  let start := ([TRun cas; TRun cas], w) in
  (exists w',
     pool_exec [Sched 0; Sched 1] start =
       Some ([TRun (Ret free); TRun (Ret taken)], w') /\
     w_heap w' = <[atomicvar := taken]> (w_heap w)) /\
  (exists w',
     pool_exec [Sched 1; Sched 0] start =
       Some ([TRun (Ret taken); TRun (Ret free)], w') /\
     w_heap w' = <[atomicvar := taken]> (w_heap w)).
Proof.
  intros Hfree Hne. cbv zeta.
  assert (Hne' : taken <> free) by congruence.
  split.
  - destruct (AtomicCompareExchange_step 0 w atomicvar free taken free Hfree)
      as (w1 & E1 & H1).
    rewrite bool_decide_eq_true_2 in H1 by reflexivity.
    assert (Htaken : w_heap w1 !! atomicvar = Some taken)
      by (rewrite H1; apply lookup_insert_eq).
    destruct (AtomicCompareExchange_step 1 w1 atomicvar free taken taken
                Htaken) as (w2 & E2 & H2).
    rewrite bool_decide_eq_false_2 in H2 by exact Hne'.
    exists w2. cbn [pool_exec pool_step fst snd lookup list_lookup].
    rewrite E1. cbn [insert list_insert fst snd lookup list_lookup].
    rewrite E2. split; [reflexivity|]. congruence.
  - destruct (AtomicCompareExchange_step 1 w atomicvar free taken free Hfree)
      as (w1 & E1 & H1).
    rewrite bool_decide_eq_true_2 in H1 by reflexivity.
    assert (Htaken : w_heap w1 !! atomicvar = Some taken)
      by (rewrite H1; apply lookup_insert_eq).
    destruct (AtomicCompareExchange_step 0 w1 atomicvar free taken taken
                Htaken) as (w2 & E2 & H2).
    rewrite bool_decide_eq_false_2 in H2 by exact Hne'.
    exists w2. cbn [pool_exec pool_step fst snd lookup list_lookup].
    rewrite E1. cbn [insert list_insert fst snd lookup list_lookup].
    rewrite E2. split; [reflexivity|]. congruence.
Qed.

(** ** Many fires *)



(** ** The interrupt handler *)


End Properties.

(** * The theorems at concrete inputs, and what the code does where a
    sentence of the specification does not hold *)

Section InitSucceeds.
#[local] Existing Instance lp64_init_ok.

(** C1: the three operations, run on a fresh world, leave traces in which
    [__debug_tick] is accessed with the mutex not held. *)
Lemma debug_tick_accessed_without_mutex :
  let w := boot 0%nat 20 1 in
  let published := snd (run 0 InitiateDebugTransfer w) in
  let aborted := snd (run 0 AbortDebug w) in
  let parked := run 1 WaitDebugData w in
  let woken :=
    snd (resume 1 (fst parked) (spurious_wake 1 (snd parked))) in
  guarded (w_trace published) = false /\
  guarded (w_trace aborted) = false /\
  guarded (w_trace woken) = false.
Proof. vm_compute. auto. Qed.

(** A wake-up is lost: the observer has locked the mutex, the PLC thread
    publishes and broadcasts before the observer parks, and the observer
    then parks for good.  No thread can move and the observer has not
    returned. *)
Lemma wakeup_can_be_lost :
  let observer := 0%nat in
  let plc := 1%nat in
  let start :=
    ([TRun WaitDebugData; TRun (InitiateDebugTransfer ;; mret 0)],
     boot 0%nat 20 1) in
  match pool_exec [Sched observer; Sched plc; Sched plc; Sched plc;
                   Sched observer] start with
  | Some (pool, w) =>
      returned <$> pool = [None; Some 0] /\
      w_waiters w = [observer] /\
      pool_step (Sched observer) (pool, w) = None /\
      pool_step (Sched plc) (pool, w) = None
  | None => False
  end.
Proof. vm_compute. auto. Qed.

(** The theorem for C1 on a fresh world: thread 1 waits and is woken. *)
Lemma rendezvous_accesses_outside_mutex_witness :
  let w := boot 0%nat 20 1 in
  w_mutex w <> Some 1%nat /\ w_mutex w = None /\ (1%nat ∉ w_waiters w) /\
  fst (resume 1 (fst (run 1 WaitDebugData w)) w) = TRun (Ret 0) /\
  unguarded (drop (length (w_trace w))
               (w_trace (snd (run 1 AbortDebug w)))) = true.
Proof.
  cbv zeta.
  assert (H1 : w_mutex (boot 0%nat 20 1) <> Some 1%nat) by discriminate.
  assert (H2 : w_mutex (boot 0%nat 20 1) = None) by reflexivity.
  assert (H3 : 1%nat ∉ w_waiters (boot 0%nat 20 1)) by apply not_elem_of_nil.
  pose proof (rendezvous_accesses_outside_mutex 1 _ _ _ H1 H2 H2 H3) as T.
  cbv zeta in T.
  split; [exact H1|]. split; [exact H2|]. split; [exact H3|].
  destruct T as (_ & _ & _ & _ & _ & _ & _ & _ & _ & _ & T11 & _).
  split; [exact T11|]. reflexivity.
Defined.

(** C2: after a successful start, a second [stopPLC] is not a no-op: it
    asks again for the deletion of the timer the first call deleted, and
    it calls [__cleanup] again. *)
Lemma second_stopPLC_repeats_the_first :
  let started := snd (run 0 (startPLC 0 0) (boot 0%nat 20 1)) in
  let r1 := run 0 stopPLC started in
  let r2 := run 0 stopPLC (snd r1) in
  let second := drop (length (w_trace (snd r1))) (w_trace (snd r2)) in
  is_Some (os_timers (w_os started) !! 1) /\
  os_timers (w_os (snd r1)) !! 1 = None /\
  In (Ev 0 false (timer_delete 1) 0) (w_trace (snd r1)) /\
  In (Ev 0 false (timer_delete 1) (-1)) second /\
  count is_timer_delete second = 1%nat /\
  count is_cleanup second = 1%nat /\
  w_app (snd r1) = 2%nat /\ w_app (snd r2) = 3%nat /\
  ~ same_state (snd r1) (snd r2).
Proof.
  cbv zeta. split; [vm_compute; eauto|].
  split; [vm_compute; reflexivity|].
  split; [vm_compute; tauto|]. split; [vm_compute; tauto|].
  split; [vm_compute; reflexivity|]. split; [vm_compute; reflexivity|].
  split; [vm_compute; reflexivity|]. split; [vm_compute; reflexivity|].
  intros (_ & _ & H & _). vm_compute in H. discriminate.
Qed.

(** The theorem for C2 on the world a successful start leaves. *)
Lemma stopPLC_twice_witness :
  let started := snd (run 0 (startPLC 0 0) (boot 0%nat 20 1)) in
  let kt :=
    Ktimer CLOCK_REALTIME thread_notify
      (Itimerspec (Timespec 0 20000000) (Timespec 0 20000000)) in
  35 <= time_t_bits /\ 31 <= long_bits /\
  os_timers (w_os started) !! g_PLC_timer (w_glob started) = Some kt /\
  fst (run 0 stopPLC (snd (run 0 stopPLC started))) = TRun (Ret tt) /\
  os_timers (w_os (snd (run 0 stopPLC started))) !!
    g_PLC_timer (w_glob started) = None.
Proof.
  cbv zeta.
  assert (H1 : 35 <= time_t_bits) by (simpl; lia).
  assert (H2 : 31 <= long_bits) by (simpl; lia).
  assert (H3 : os_timers (w_os (snd (run 0 (startPLC 0 0) (boot 0%nat 20 1))))
               !! g_PLC_timer
                    (w_glob (snd (run 0 (startPLC 0 0) (boot 0%nat 20 1)))) =
               Some (Ktimer CLOCK_REALTIME thread_notify
                       (Itimerspec (Timespec 0 20000000)
                          (Timespec 0 20000000))))
    by (vm_compute; reflexivity).
  pose proof (stopPLC_twice 0 _ _ H1 H2 H3) as T. cbv zeta in T.
  split; [exact H1|]. split; [exact H2|]. split; [exact H3|].
  destruct T as (_ & T2 & _ & T4 & _).
  split; [exact T2|exact T4].
Defined.

(** C7: the OS grants no timer, [__init] succeeds, and [startPLC] returns
    0 all the same. *)
Lemma startPLC_succeeds_without_timer :
  let w := boot 0%nat 20 0 in
  let r := run 0 (startPLC 0 0) w in
  os_free_timers (w_os w) = 0%nat /\
  In (Ev 0 false (timer_create CLOCK_REALTIME thread_notify PLC_timer) (-1))
     (w_trace (snd r)) /\
  os_timers (w_os (snd r)) = ∅ /\
  fst r = TRun (Ret 0).
Proof.
  cbv zeta. split; [reflexivity|]. split; [vm_compute; tauto|].
  split; vm_compute; reflexivity.
Qed.

(** The theorem for C7 on a world whose OS grants no timer. *)
Lemma startPLC_timer_create_failure_witness :
  let w := boot 0%nat 20 0 in
  os_free_timers (w_os w) = 0%nat /\
  fst (run 0 (startPLC 0 0) w) = TRun (Ret 0) /\
  os_free_timers (w_os (snd (run 0 (startPLC 0 0) w))) = 0%nat.
Proof.
  cbv zeta.
  assert (H : os_free_timers (w_os (boot 0%nat 20 0)) = 0%nat) by reflexivity.
  pose proof (startPLC_timer_create_failure 0 0 0 _ H) as T. cbv zeta in T.
  destruct T as (T1 & _ & _ & T4).
  split; [exact H|]. split; [exact T1|exact T4].
Defined.

(** C8: a tick time of 2148 ms overflows a 32-bit product. *)
Lemma Ttick_overflows_int :
  let c := 2148 in
  let r := run 0 (startPLC 0 0) (boot 0%nat c 1) in
  in_range ticktime_bits c /\
  g_Ttick (w_glob (snd r)) = -2146967296 /\
  g_Ttick (w_glob (snd r)) <> 1000000 * Z.max c 1 /\
  ~ 0 < g_Ttick (w_glob (snd r)).
Proof.
  cbv zeta. split; [unfold in_range; simpl; lia|].
  assert (E : g_Ttick (w_glob (snd (run 0 (startPLC 0 0) (boot 0%nat 2148 1))))
              = -2146967296) by (vm_compute; reflexivity).
  rewrite E. split; [reflexivity|]. split; lia.
Qed.

(** The theorem for C8 at a tick time of 20 ms. *)
Lemma startPLC_period_witness :
  let w := boot 0%nat 20 1 in
  let r := run 0 (startPLC 0 0) w in
  32 <= ticktime_bits <= 64 /\ 35 <= time_t_bits /\ 31 <= long_bits /\
  1000000 * Z.max (g_common_ticktime (w_glob w)) 1 < 2 ^ (ticktime_bits - 1) /\
  (ext_init 0 0 (w_app w)).1 = 0 /\
  g_Ttick (w_glob (snd r)) = 20000000 /\ fst r = TRun (Ret 0).
Proof.
  cbv zeta.
  assert (H1 : 32 <= ticktime_bits <= 64) by (simpl; lia).
  assert (H2 : 35 <= time_t_bits) by (simpl; lia).
  assert (H3 : 31 <= long_bits) by (simpl; lia).
  assert (H4 : 1000000 * Z.max (g_common_ticktime (w_glob (boot 0%nat 20 1))) 1
               < 2 ^ (ticktime_bits - 1)) by (simpl; lia).
  assert (H5 : (ext_init 0 0 (w_app (boot 0%nat 20 1))).1 = 0) by reflexivity.
  pose proof (startPLC_period 0 0 0 _ H1 H2 H3 H4) as T. cbv zeta in T.
  split; [exact H1|]. split; [exact H2|]. split; [exact H3|].
  split; [exact H4|]. split; [exact H5|].
  destruct T as (T1 & _ & T3). destruct (T3 H5) as (T4 & _).
  split; [exact T1|exact T4].
Defined.

(** C6 at the examples of the specification. *)
Lemma PLC_SetTimer_splits_exactly_witness :
  let w := snd (run 0 (startPLC 0 0) (boot 0%nat 20 1)) in
  35 <= time_t_bits /\ 31 <= long_bits /\
  0 <= 1500000000 <= 2 ^ 63 - 1 /\ 0 <= 999999999 <= 2 ^ 63 - 1 /\
  fst (run 0 (PLC_SetTimer 1500000000 999999999) w) = TRun (Ret tt) /\
  timerValues 1500000000 999999999 =
    Itimerspec (Timespec 0 999999999) (Timespec 1 500000000) /\
  timerValues 0 0 = memset_itimerspec.
Proof.
  cbv zeta.
  assert (H1 : 35 <= time_t_bits) by (simpl; lia).
  assert (H2 : 31 <= long_bits) by (simpl; lia).
  assert (H3 : 0 <= 1500000000 <= 2 ^ 63 - 1) by lia.
  assert (H4 : 0 <= 999999999 <= 2 ^ 63 - 1) by lia.
  pose proof (PLC_SetTimer_splits_exactly 0
                (snd (run 0 (startPLC 0 0) (boot 0%nat 20 1)))
                1500000000 999999999 H1 H2 H3 H4) as T.
  cbv zeta in T.
  split; [exact H1|]. split; [exact H2|]. split; [exact H3|].
  destruct T as (T1 & _ & _ & _ & _ & _ & _ & _ & _ & _ & _ & T12 & T13 & _).
  split; [exact H4|]. split; [exact T1|].
  split; [exact T12|exact T13].
Defined.

(** C4 at the example of the specification: 5 then 7 are published, the
    observer then waits and is woken: it returns 7. *)
Lemma publishes_coalesce_witness :
  let w := boot 0%nat 20 1 in
  let parked := run 1 WaitDebugData (snd (run 0 (publishes [5; 7]) w)) in
  w_mutex w = None /\ in_range int_bits 7 /\
  g_debug_tick (w_glob (snd (run 0 (publishes [5; 7]) w))) = 7 /\
  fst (resume 1 (fst parked) (spurious_wake 1 (snd parked))) = TRun (Ret 7).
Proof.
  cbv zeta.
  assert (H1 : w_mutex (boot 0%nat 20 1) = None) by reflexivity.
  assert (H2 : in_range int_bits 7) by (unfold in_range, int_bits; lia).
  pose proof (publishes_coalesce 0 1 _ [5] [] 7 H1 H2) as T. cbv zeta in T.
  split; [exact H1|]. split; [exact H2|].
  destruct T as (_ & T2 & _ & _ & _ & T6 & _).
  split; [exact T2|exact T6].
Defined.

(** The theorem for C10 on a cell that holds 3: one exchange that takes
    place and one that does not. *)
Lemma AtomicCompareExchange_returns_old_witness :
  let w :=
    set_heap ({[ 8 := 3 ]} : gmap Z Z)
      (boot (P := lp64_init_ok) 0%nat 20 1) in
  w_heap w !! 8 = Some 3 /\
  fst (run 0 (AtomicCompareExchange 8 3 4) w) = TRun (Ret 3) /\
  w_heap (snd (run 0 (AtomicCompareExchange 8 3 4) w)) !! 8 = Some 4 /\
  fst (run 0 (AtomicCompareExchange 8 5 4) w) = TRun (Ret 3) /\
  w_heap (snd (run 0 (AtomicCompareExchange 8 5 4) w)) = w_heap w.
Proof.
  cbv zeta.
  set (w := set_heap ({[ 8 := 3 ]} : gmap Z Z)
              (boot (P := lp64_init_ok) 0%nat 20 1)).
  assert (H : w_heap w !! 8 = Some 3) by reflexivity.
  pose proof (AtomicCompareExchange_returns_old 0 w 8 3 4 3 H) as T.
  pose proof (AtomicCompareExchange_returns_old 0 w 8 5 4 3 H) as T'.
  cbv zeta in T, T'.
  destruct T as (T1 & _ & T3 & _). destruct T' as (T1' & _ & _ & T4' & _).
  split; [exact H|]. split; [exact T1|].
  split; [exact (T3 eq_refl)|]. split; [exact T1'|].
  apply T4'. discriminate.
Defined.

(** X1 at -1.5 s: the seconds and the nanoseconds are both negative. *)
Lemma PLC_SetTimer_truncates_toward_zero_witness :
  35 <= time_t_bits /\ 31 <= long_bits /\
  in_range llong_bits (-1500000000) /\ in_range llong_bits 0 /\
  tv_sec (it_value (timerValues (-1500000000) 0)) = -1 /\
  tv_nsec (it_value (timerValues (-1500000000) 0)) = -500000000.
Proof.
  assert (H1 : 35 <= time_t_bits) by (simpl; lia).
  assert (H2 : 31 <= long_bits) by (simpl; lia).
  assert (H3 : in_range llong_bits (-1500000000))
    by (unfold in_range, llong_bits; simpl; lia).
  assert (H4 : in_range llong_bits 0)
    by (unfold in_range, llong_bits; simpl; lia).
  pose proof (PLC_SetTimer_truncates_toward_zero 0 (boot 0%nat 20 1)
                (-1500000000) 0 H1 H2 H3 H4) as T.
  cbv zeta in T. destruct T as (_ & _ & (T1 & T2 & _) & _).
  split; [exact H1|]. split; [exact H2|]. split; [exact H3|].
  split; [exact H4|]. split; [exact T1|exact T2].
Defined.


(** X4 on a fresh world: start, then stop. *)
Lemma startPLC_then_stopPLC_witness :
  let w := boot 0%nat 20 1 in
  let stopped := snd (run 0 stopPLC (snd (run 0 (startPLC 0 0) w))) in
  35 <= time_t_bits /\ 31 <= long_bits /\
  os_free_timers (w_os w) = 1%nat /\
  os_timers (w_os w) !! os_next_id (w_os w) = None /\
  os_timers (w_os stopped) = os_timers (w_os w) /\
  os_free_timers (w_os stopped) = 1%nat /\
  os_sigint (w_os stopped) = Some catch_signal_fn.
Proof.
  cbv zeta.
  assert (H1 : 35 <= time_t_bits) by (simpl; lia).
  assert (H2 : 31 <= long_bits) by (simpl; lia).
  assert (H3 : os_free_timers (w_os (boot 0%nat 20 1)) = 1%nat)
    by reflexivity.
  assert (H4 : os_timers (w_os (boot 0%nat 20 1))
               !! os_next_id (w_os (boot 0%nat 20 1)) = None)
    by reflexivity.
  pose proof (startPLC_then_stopPLC 0 0 0 0 _ _ H1 H2 H3 H4) as T.
  cbv zeta in T. destruct T as (_ & _ & _ & _ & T5 & T6 & T7 & _).
  split; [exact H1|]. split; [exact H2|]. split; [exact H3|].
  split; [exact H4|]. split; [exact T5|]. split; [exact T6|exact T7].
Defined.

(** X5 on a fresh world whose OS grants two timers: after two starts and a
    stop, timer 1 is still live. *)
Lemma startPLC_twice_leaks_a_timer_witness :
  let w := boot 0%nat 20 2 in
  let s2 := snd (run 0 (startPLC 0 0) (snd (run 0 (startPLC 0 0) w))) in
  let stopped := snd (run 0 stopPLC s2) in
  32 <= ticktime_bits <= 64 /\ 35 <= time_t_bits /\ 31 <= long_bits /\
  1000000 * Z.max (g_common_ticktime (w_glob w)) 1 < 2 ^ (ticktime_bits - 1) /\
  os_free_timers (w_os w) = 2%nat /\
  (ext_init 0 0 (w_app w)).1 = 0 /\
  g_PLC_timer (w_glob s2) = 2 /\
  os_timers (w_os stopped) !! 2 = None /\
  os_timers (w_os stopped) !! 1 =
    Some (Ktimer CLOCK_REALTIME thread_notify
            (Itimerspec (Timespec 0 20000000) (Timespec 0 20000000))).
Proof.
  cbv zeta.
  assert (H1 : 32 <= ticktime_bits <= 64) by (simpl; lia).
  assert (H2 : 35 <= time_t_bits) by (simpl; lia).
  assert (H3 : 31 <= long_bits) by (simpl; lia).
  assert (H4 : 1000000 * Z.max (g_common_ticktime (w_glob (boot 0%nat 20 2))) 1
               < 2 ^ (ticktime_bits - 1)) by (simpl; lia).
  assert (H5 : os_free_timers (w_os (boot 0%nat 20 2)) = 2%nat) by reflexivity.
  assert (H6 : (ext_init 0 0 (w_app (boot 0%nat 20 2))).1 = 0) by reflexivity.
  pose proof (startPLC_twice_leaks_a_timer 0 0 0 0 0 _ _ H1 H2 H3 H4 H5 H6)
    as T.
  cbv zeta in T. destruct T as (_ & T2 & _ & _ & _ & T6 & T7 & _).
  split; [exact H1|]. split; [exact H2|]. split; [exact H3|].
  split; [exact H4|]. split; [exact H5|]. split; [exact H6|].
  split; [exact T2|]. split; [exact T6|exact T7].
Defined.

(** X6 on a started PLC: stop, start again, and an observer that is woken
    before the first publish returns -1. *)
Lemma restart_keeps_the_sentinel_witness :
  let w := snd (run 0 (startPLC 0 0) (boot 0%nat 20 2)) in
  let restarted := snd (run 0 (startPLC 0 0) (snd (run 0 stopPLC w))) in
  35 <= time_t_bits /\ 31 <= long_bits /\ w_mutex w = None /\
  g_debug_tick (w_glob restarted) = -1 /\
  fst (resume 1 (TWait WaitDebugData_woken) restarted) = TRun (Ret (-1)).
Proof.
  cbv zeta.
  assert (H1 : 35 <= time_t_bits) by (simpl; lia).
  assert (H2 : 31 <= long_bits) by (simpl; lia).
  assert (H3 : w_mutex (snd (run 0 (startPLC 0 0) (boot 0%nat 20 2))) = None)
    by reflexivity.
  pose proof (restart_keeps_the_sentinel 0 1 0 0 _ H1 H2 H3) as T.
  cbv zeta in T. destruct T as (_ & T2 & _ & _ & _ & T6 & _).
  split; [exact H1|]. split; [exact H2|]. split; [exact H3|].
  split; [exact T2|exact T6].
Defined.

(** X7 with two observers: woken in the other order, both return the
    published 7, or -1 after an abort. *)
Lemma broadcast_releases_every_observer_witness :
  let parked := park_all [1%nat; 2%nat] (boot 0%nat 20 1) in
  w_mutex (boot 0%nat 20 1) = None /\ in_range int_bits 7 /\
  [2%nat; 1%nat] ≡ₚ [1%nat; 2%nat] /\
  fst (resume_all [2%nat; 1%nat] (snd (run 0 (cycle_publish 7) parked))) =
    [Some 7; Some 7] /\
  fst (resume_all [2%nat; 1%nat] (snd (run 0 AbortDebug parked))) =
    [Some (-1); Some (-1)].
Proof.
  cbv zeta.
  assert (H1 : w_mutex (boot 0%nat 20 1) = None) by reflexivity.
  assert (H2 : in_range int_bits 7) by (unfold in_range, int_bits; lia).
  assert (H3 : [2%nat; 1%nat] ≡ₚ [1%nat; 2%nat]) by apply perm_swap.
  pose proof (broadcast_releases_every_observer 0 _ _ _ 7 H1 H2 H3) as T.
  cbv zeta in T. destruct T as (_ & _ & _ & _ & T5 & T6).
  split; [exact H1|]. split; [exact H2|]. split; [exact H3|].
  split; [exact T5|exact T6].
Defined.

(** X8 with two observers parked on a started PLC. *)
Lemma stopPLC_releases_every_observer_witness :
  let w := snd (run 0 (startPLC 0 0) (boot 0%nat 20 1)) in
  let stopped := snd (run 0 stopPLC (park_all [1%nat; 2%nat] w)) in
  35 <= time_t_bits /\ 31 <= long_bits /\ w_mutex w = None /\
  [2%nat; 1%nat] ≡ₚ [1%nat; 2%nat] /\
  w_waiters stopped = [] /\
  fst (resume_all [2%nat; 1%nat] stopped) = [Some (-1); Some (-1)].
Proof.
  cbv zeta.
  assert (H1 : 35 <= time_t_bits) by (simpl; lia).
  assert (H2 : 31 <= long_bits) by (simpl; lia).
  assert (H3 : w_mutex (snd (run 0 (startPLC 0 0) (boot 0%nat 20 1))) = None)
    by reflexivity.
  assert (H4 : [2%nat; 1%nat] ≡ₚ [1%nat; 2%nat]) by apply perm_swap.
  pose proof (stopPLC_releases_every_observer 0 _ _ _ H1 H2 H3 H4) as T.
  cbv zeta in T. destruct T as (_ & _ & T3 & _ & T5).
  split; [exact H1|]. split; [exact H2|]. split; [exact H3|].
  split; [exact H4|]. split; [exact T3|exact T5].
Defined.

(** X9 on a fresh world: a wait that starts after an abort parks. *)
Lemma WaitDebugData_never_returns_unwoken_witness :
  let w := boot 0%nat 20 1 in
  let parked := run 1 WaitDebugData (snd (run 0 AbortDebug w)) in
  w_mutex w = None /\
  returned (fst (run 1 WaitDebugData w)) = None /\
  fst parked = TWait WaitDebugData_woken /\
  g_debug_tick (w_glob (snd parked)) = -1.
Proof.
  cbv zeta.
  assert (H : w_mutex (boot 0%nat 20 1) = None) by reflexivity.
  pose proof (WaitDebugData_never_returns_unwoken 0 1 (boot 0%nat 20 1)) as T.
  cbv zeta in T. destruct T as (T1 & T2).
  destruct (T2 H) as (_ & T3 & _ & T5 & _).
  split; [exact H|]. split; [exact T1|]. split; [exact T3|exact T5].
Defined.

(** X10 on a fresh world with the cycle counter at 0. *)
Lemma broadcast_before_wait_is_lost_witness :
  let w := boot 0%nat 20 1 in
  w_mutex w = None /\
  exists w',
    pool_exec [Sched 0; Sched 1; Sched 1; Sched 0]
      ([TRun WaitDebugData; TRun (AbortDebug ;; mret 0)], w) =
      Some ([TWait WaitDebugData_woken; TRun (Ret 0)], w') /\
    w_waiters w' = [0%nat].
Proof.
  cbv zeta.
  assert (H : w_mutex (boot 0%nat 20 1) = None) by reflexivity.
  pose proof (broadcast_before_wait_is_lost _ H) as T.
  cbv zeta in T. destruct T as (_ & w' & T1 & T2 & _).
  split; [exact H|]. exists w'. split; [exact T1|exact T2].
Defined.

(** X11 on a cell that holds 0: a lock taken by writing 1. *)
Lemma AtomicCompareExchange_one_winner_witness :
  let w :=
    set_heap ({[ 8 := 0 ]} : gmap Z Z)
      (boot (P := lp64_init_ok) 0%nat 20 1) in
  w_heap w !! 8 = Some 0 /\ 0 <> 1 /\
  exists w',
    pool_exec [Sched 1; Sched 0]
      ([TRun (AtomicCompareExchange 8 0 1);
        TRun (AtomicCompareExchange 8 0 1)], w) =
    Some ([TRun (Ret 1); TRun (Ret 0)], w').
Proof.
  cbv zeta.
  set (w := set_heap ({[ 8 := 0 ]} : gmap Z Z)
              (boot (P := lp64_init_ok) 0%nat 20 1)).
  assert (H1 : w_heap w !! 8 = Some 0) by reflexivity.
  assert (H2 : 0 <> 1) by discriminate.
  pose proof (AtomicCompareExchange_one_winner w 8 0 1 H1 H2) as T.
  cbv zeta in T. destruct T as (_ & w' & T1 & _).
  split; [exact H1|]. split; [exact H2|]. exists w'. exact T1.
Defined.


End InitSucceeds.

Section InitFails.
#[local] Existing Instance lp64_init_fails.

(** C3: [__init] fails, and yet a timer has been allocated: it is live when
    [startPLC] returns 1, and a later [stopPLC] changes the OS state by
    deleting it. *)
Lemma failed_start_leaves_a_timer :
  let w := boot 0%nat 20 1 in
  let r := run 0 (startPLC 0 0) w in
  let r2 := run 0 stopPLC (snd r) in
  (ext_init 0 0 (w_app w)).1 <> 0 /\
  fst r = TRun (Ret 1) /\
  os_timers (w_os w) !! 1 = None /\
  os_timers (w_os (snd r)) !! 1 =
    Some (Ktimer CLOCK_REALTIME thread_notify memset_itimerspec) /\
  os_free_timers (w_os w) = 1%nat /\
  os_free_timers (w_os (snd r)) = 0%nat /\
  In (Ev 0 false (timer_delete 1) 0) (w_trace (snd r2)) /\
  w_os (snd r2) <> w_os (snd r).
Proof.
  cbv zeta. split; [discriminate|].
  split; [vm_compute; reflexivity|]. split; [vm_compute; reflexivity|].
  split; [vm_compute; reflexivity|]. split; [vm_compute; reflexivity|].
  split; [vm_compute; reflexivity|]. split; [vm_compute; tauto|].
  intros H. apply (f_equal os_free_timers) in H. vm_compute in H.
  discriminate.
Qed.

(** The theorem for C3 on a fresh world, with [__init] returning 7. *)
Lemma startPLC_init_failure_witness :
  let w := boot 0%nat 20 1 in
  35 <= time_t_bits /\ 31 <= long_bits /\
  (ext_init 0 0 (w_app w)).1 <> 0 /\
  fst (run 0 (startPLC 0 0) w) = TRun (Ret 1) /\
  os_sigint (w_os (snd (run 0 (startPLC 0 0) w))) = None.
Proof.
  cbv zeta.
  assert (H1 : 35 <= time_t_bits) by (simpl; lia).
  assert (H2 : 31 <= long_bits) by (simpl; lia).
  assert (H3 : (ext_init 0 0 (w_app (boot 0%nat 20 1))).1 <> 0)
    by discriminate.
  pose proof (startPLC_init_failure 0 0 0 _ H1 H2 H3) as T. cbv zeta in T.
  split; [exact H1|]. split; [exact H2|]. split; [exact H3|].
  destruct T as (T1 & _ & T3 & _).
  split; [exact T1|exact T3].
Defined.

End InitFails.

Section WideTickTime.
#[local] Existing Instance lp64_wide_ticktime.

(** C8 again, with the product computed in 64 bits. *)
Lemma Ttick_overflows_llong :
  let c := 9223372036855 in
  let r := run 0 (startPLC 0 0) (boot 0%nat c 1) in
  in_range ticktime_bits c /\
  g_Ttick (w_glob (snd r)) = -9223372036854551616 /\
  g_Ttick (w_glob (snd r)) <> 1000000 * Z.max c 1 /\
  ~ 0 < g_Ttick (w_glob (snd r)).
Proof.
  cbv zeta. split; [unfold in_range; simpl; lia|].
  assert (E : g_Ttick
                (w_glob (snd (run 0 (startPLC 0 0)
                                (boot 0%nat 9223372036855 1))))
              = -9223372036854551616) by (vm_compute; reflexivity).
  rewrite E. split; [reflexivity|]. split; lia.
Qed.

End WideTickTime.
